(** * Grocery shop: sales, inventory and customer bookkeeping

    A shallow embedding of the bookkeeping core of [grocery_shop.py]
    (class [GroceryShopApp]): the cart ([add_to_cart], [remove_from_cart],
    [clear_cart]), [process_sale], [save_product] and [save_customer] with
    their id generator, [update_stock_dialog], the shopping lists
    ([add_to_shopping_list], [remove_from_shopping_list],
    [clear_shopping_list], [add_shopping_list_to_cart]) and what the displays
    and reports compute from the tables ([update_cart_display],
    [refresh_customer_list], [filter_products], [show_low_stock], the
    transaction count of [generate_daily_report]).

    Conventions of the embedding.
    - A pandas [DataFrame] is the list of its rows, in row order; every frame
      of the program carries the default [RangeIndex], so an index label is a
      position and [frame[mask].index[0]] is the first matching row.
    - Python [int] is [Z]; Python [float] (and numpy [float64]) is the
      kernel's binary64 [float] with its IEEE operations.
    - The column [Stock_Quantity] is an [int64] column, as it is for the
      sample inventory and for a data file of ordinary stock numbers: the
      subtraction [process_sale] performs on it wraps around ([Py.wrap64])
      and the assignment of the stock dialog refuses a number past
      2^63 - 1.  The rows are records over [Z]; a statement that depends on
      the stock being an [int64] says so ([Py.in_int64]).
    - A [tk.StringVar] is the string it holds.  A numeric entry field is
      represented by the result of the conversion the handler applies to it
      ([int(...)] or [float(...)]), [None] standing for [ValueError].
    - A call to [messagebox] is an element of the list of dialogs a handler
      returns; the text of a dialog that is formatted from data is kept as
      that data.
    - The [save_*] methods write files and swallow every exception; they do
      not touch the in-memory tables and are left out, as are the widget
      refreshes. *)

From Stdlib Require Import ZArith NArith String Ascii List Bool Lia.
From Stdlib Require Import DecimalString DecimalN DecimalPos DecimalFacts.
From Stdlib Require Import PrimFloat Uint63 FloatOps.
From stdpp Require Import base option list gmap strings.

Local Open Scope Z_scope.

(** ** Python strings and numbers *)

Module Py.

(** Exceptions raised by the modelled code. *)
Inductive Exn := IndexError | ValueError | AttributeError | OverflowError.

(** [bool(s)] for a string: true iff non-empty. *)
Definition str_truth (s : string) : bool :=
  match s with EmptyString => false | String _ _ => true end.

(** [s[1:]] *)
Definition tail (s : string) : string :=
  match s with EmptyString => EmptyString | String _ r => r end.

(** The ASCII characters [str.strip()] removes: tab, line feed, vertical
    tab, form feed, carriage return, the separators 0x1c-0x1f and space. *)
Definition is_space (c : ascii) : bool :=
  match c with
  | "009" | "010" | "011" | "012" | "013"
  | "028" | "029" | "030" | "031" | " " => true
  | _ => false
  end%char.

Definition is_digit (c : ascii) : bool :=
  match c with
  | "0" | "1" | "2" | "3" | "4" | "5" | "6" | "7" | "8" | "9" => true
  | _ => false
  end%char.

Fixpoint lstrip (s : string) : string :=
  match s with
  | EmptyString => EmptyString
  | String c r => if is_space c then lstrip r else s
  end.

Fixpoint rstrip (s : string) : string :=
  match s with
  | EmptyString => EmptyString
  | String c r =>
      match rstrip r with
      | EmptyString => if is_space c then EmptyString else String c EmptyString
      | r' => String c r'
      end
  end.

Definition strip (s : string) : string := rstrip (lstrip s).

(** The digit part of an integer literal: decimal digits, with single
    underscores allowed between two digits.  Returns the digits with the
    underscores removed, [None] when the grammar is violated. *)
Fixpoint digit_run (after_digit : bool) (s : string) : option string :=
  match s with
  | EmptyString => if after_digit then Some EmptyString else None
  | String c r =>
      if is_digit c then String c <$> digit_run true r
      else if (Ascii.eqb c "_" && after_digit)%bool then digit_run false r
      else None
  end.

Definition nat_of_digits (s : string) : option N :=
  d ← digit_run false s; N.of_uint <$> NilEmpty.uint_of_string d.

(** [int(s)] on a string: surrounding whitespace stripped, an optional
    sign, then the digit part.  [None] is [ValueError].  Covers ASCII input;
    Python also accepts non-ASCII whitespace and digits, which no id written
    by this program contains. *)
Definition int_of_string (s : string) : option Z :=
  match strip s with
  | String "+" r => Z.of_N <$> nat_of_digits r
  | String "-" r => (fun n => - Z.of_N n) <$> nat_of_digits r
  | t => Z.of_N <$> nat_of_digits t
  end.

(** The decimal digits of a natural number, most significant first. *)
Definition digits (n : N) : string := NilEmpty.string_of_uint (N.to_uint n).

Fixpoint zeros (k : nat) : string :=
  match k with O => EmptyString | S k' => String "0" (zeros k') end.

Definition zfill (w : nat) (s : string) : string :=
  zeros (w - String.length s) +:+ s.

(** [f"{z:0{w}d}"]: sign first, then zeros up to total width [w]. *)
Definition format_d (w : nat) (z : Z) : string :=
  if z <? 0 then String "-" (zfill (w - 1) (digits (Z.to_N (- z))))
  else zfill w (digits (Z.to_N z)).

(** [s.split(sep)] for a non-empty separator: cut at the leftmost
    occurrences, which do not overlap.  [skip] counts the characters of a
    separator still to be passed over; [cur] is the piece being read. *)
Fixpoint split_go (sep : string) (skip : nat) (cur : string) (s : string)
  : list string :=
  match s with
  | EmptyString => [cur]
  | String c r =>
      match skip with
      | S k => split_go sep k cur r
      | O =>
          if String.prefix sep s
          then cur :: split_go sep (String.length sep - 1) EmptyString r
          else split_go sep O (cur +:+ String c EmptyString) r
      end
  end.

Definition split (sep s : string) : list string := split_go sep O EmptyString s.

(** The conversion of a natural number to binary64, rounded to the nearest
    float, ties to even.  Below 2^62 the primitive conversion does it; a
    larger number is cut to its 62 leading bits, the last of which also
    records whether anything was cut off, converted, and scaled back by the
    power of two (both steps exact but for the single rounding). *)
Definition float_of_nonneg (n : Z) : float :=
  if n <? 2 ^ 62 then PrimFloat.of_uint63 (Uint63.of_Z n)
  else
    let e := Z.log2 n - 61 in
    let m := Z.shiftr n e in
    let sticky := if Z.land n (Z.ones e) =? 0 then 0 else 1 in
    Z.ldexp (PrimFloat.of_uint63 (Uint63.of_Z (Z.lor m sticky))) e.

(** [float(z)], the conversion Python applies to an [int] that meets a
    float.  Past the largest float the result here is an infinity, where
    Python raises [OverflowError]. *)
Definition float_of_Z (z : Z) : float :=
  if z <? 0 then PrimFloat.opp (float_of_nonneg (- z)) else float_of_nonneg z.

(** The values of an [int64] column. *)
Definition in_int64 (z : Z) : Prop := - 2 ^ 63 ≤ z < 2 ^ 63.

(** The [int64] that numpy's arithmetic returns for the exact result [z]:
    the result modulo 2^64, taken between -2^63 and 2^63 - 1. *)
Definition wrap64 (z : Z) : Z := (z + 2 ^ 63) mod 2 ^ 64 - 2 ^ 63.

(** [bool(x)] for a float: [x != 0.0]. *)
Definition float_truth (x : float) : bool := negb (PrimFloat.eqb x 0%float).

End Py.

(** ** The tables *)

(** A row of [self.inventory]. *)
Record Product := {
  Product_ID : string;
  Product_Name : string;
  Category : string;
  Unit_Price : float;
  Stock_Quantity : Z;
  Min_Stock_Level : Z;
  Supplier : string
}.

(** A row of [self.customers]. *)
Record Customer := {
  Customer_ID : string;
  Customer_Name : string;
  Phone : string;
  Email : string;
  Address : string;
  Registration_Date : string;
  Total_Purchases : float
}.

(** A row of [self.sales_records]; the columns that share a name with a
    column of another table carry the prefix [Sale_]. *)
Record SaleRecord := {
  Sale_ID : string;
  Sale_Date : string;
  Sale_Time : string;
  Sale_Customer_ID : string;
  Sale_Customer_Name : string;
  Sale_Product_ID : string;
  Sale_Product_Name : string;
  Quantity : Z;
  Sale_Unit_Price : float;
  Total_Amount : float;
  Payment_Method : string
}.

(** An element of [self.current_cart] (the dict [cart_item]). *)
Record CartItem := {
  product_id : string;
  product_name : string;
  quantity : Z;
  unit_price : float;
  total : float
}.

(** An element of a shopping list (the dict [list_item]). *)
Record ListItem := {
  product : string;
  list_quantity : Z;
  notes : string
}.

(** The attributes of [GroceryShopApp] the handlers read and write. *)
Record App := {
  inventory : list Product;
  sales_records : list SaleRecord;
  customers : list Customer;
  shopping_lists : gmap string (list ListItem);
  current_cart : list CartItem;
  customer_var : string;
  payment_var : string;
  shopping_customer_var : string
}.

Definition set_inventory (inv : list Product) (app : App) : App :=
  {| inventory := inv; sales_records := sales_records app;
     customers := customers app; shopping_lists := shopping_lists app;
     current_cart := current_cart app; customer_var := customer_var app;
     payment_var := payment_var app;
     shopping_customer_var := shopping_customer_var app |}.

Definition set_sales_records (sales : list SaleRecord) (app : App) : App :=
  {| inventory := inventory app; sales_records := sales;
     customers := customers app; shopping_lists := shopping_lists app;
     current_cart := current_cart app; customer_var := customer_var app;
     payment_var := payment_var app;
     shopping_customer_var := shopping_customer_var app |}.

Definition set_customers (cs : list Customer) (app : App) : App :=
  {| inventory := inventory app; sales_records := sales_records app;
     customers := cs; shopping_lists := shopping_lists app;
     current_cart := current_cart app; customer_var := customer_var app;
     payment_var := payment_var app;
     shopping_customer_var := shopping_customer_var app |}.

Definition set_current_cart (cart : list CartItem) (app : App) : App :=
  {| inventory := inventory app; sales_records := sales_records app;
     customers := customers app; shopping_lists := shopping_lists app;
     current_cart := cart; customer_var := customer_var app;
     payment_var := payment_var app;
     shopping_customer_var := shopping_customer_var app |}.

Definition set_customer_var (s : string) (app : App) : App :=
  {| inventory := inventory app; sales_records := sales_records app;
     customers := customers app; shopping_lists := shopping_lists app;
     current_cart := current_cart app; customer_var := s;
     payment_var := payment_var app;
     shopping_customer_var := shopping_customer_var app |}.

Definition set_shopping_lists (m : gmap string (list ListItem)) (app : App) : App :=
  {| inventory := inventory app; sales_records := sales_records app;
     customers := customers app; shopping_lists := m;
     current_cart := current_cart app; customer_var := customer_var app;
     payment_var := payment_var app;
     shopping_customer_var := shopping_customer_var app |}.

(** The customer chosen in the combo box of the shopping-list tab. *)
Definition set_shopping_customer_var (s : string) (app : App) : App :=
  {| inventory := inventory app; sales_records := sales_records app;
     customers := customers app; shopping_lists := shopping_lists app;
     current_cart := current_cart app; customer_var := customer_var app;
     payment_var := payment_var app;
     shopping_customer_var := s |}.

(** The payment method chosen in the combo box of the sales tab. *)
Definition set_payment_var (s : string) (app : App) : App :=
  {| inventory := inventory app; sales_records := sales_records app;
     customers := customers app; shopping_lists := shopping_lists app;
     current_cart := current_cart app; customer_var := customer_var app;
     payment_var := s;
     shopping_customer_var := shopping_customer_var app |}.

Definition set_stock (q : Z) (p : Product) : Product :=
  {| Product_ID := Product_ID p; Product_Name := Product_Name p;
     Category := Category p; Unit_Price := Unit_Price p;
     Stock_Quantity := q; Min_Stock_Level := Min_Stock_Level p;
     Supplier := Supplier p |}.

Definition set_total_purchases (x : float) (c : Customer) : Customer :=
  {| Customer_ID := Customer_ID c; Customer_Name := Customer_Name c;
     Phone := Phone c; Email := Email c; Address := Address c;
     Registration_Date := Registration_Date c; Total_Purchases := x |}.

(** ** Dialogs *)

(** The text of a message box: fixed, or formatted from the data kept
    here. *)
Inductive Message :=
  | Text (s : string)
  | SaleProcessed (sale_id : string) (total_sale_amount : float)
  | ErrorProcessingSale (e : Py.Exn)
  | NotEnoughStockFor (name : string) (available requested : Z)
  | ItemsAdded (items_added : Z)
  | ProductAdded (new_product_id : string)
  | ErrorAddingProduct (e : Py.Exn)
  | CustomerAdded (new_customer_id : string)
  | ErrorAddingCustomer (e : Py.Exn)
  | ErrorUpdatingStock (e : Py.Exn).

(** What a handler shows: the three [messagebox] calls, and the report Tk
    makes of an exception that leaves a callback. *)
Inductive Dialog :=
  | showwarning (title : string) (m : Message)
  | showerror (title : string) (m : Message)
  | showinfo (title : string) (m : Message)
  | callback_exception (e : Py.Exn).

(** ** Lookups *)

(** [self.inventory[self.inventory['Product_ID'] == id]]: position and row
    of the first match. *)
Definition find_product (id : string) (inv : list Product)
  : option (nat * Product) :=
  list_find (fun p => Product_ID p = id) inv.

(** [self.inventory[self.inventory['Product_Name'] == name]], first match. *)
Definition find_product_by_name (name : string) (inv : list Product)
  : option (nat * Product) :=
  list_find (fun p => Product_Name p = name) inv.

(** [self.customers[self.customers['Customer_ID'] == id].index]. *)
Definition find_customer (id : string) (cs : list Customer)
  : option (nat * Customer) :=
  list_find (fun c => Customer_ID c = id) cs.

(** ** The cart *)

(** The inner function [add_item] of [add_to_cart]; [product] is the row
    the dialog was opened on, [qty_var] the result of [int(qty_var.get())]. *)
Definition add_item (product_id : string) (product : Product)
    (qty_var : option Z) (app : App) : App * list Dialog :=
  match qty_var with
  | None => (app, [showerror "Error" (Text "Please enter a valid quantity!")])
  | Some quantity =>
      if quantity <=? 0
      then (app, [showerror "Error" (Text "Quantity must be positive!")])
      else if quantity >? Stock_Quantity product
      then (app, [showerror "Error" (Text "Not enough stock available!")])
      else
        let cart_item :=
          {| product_id := product_id;
             product_name := Product_Name product;
             quantity := quantity;
             unit_price := Unit_Price product;
             total := PrimFloat.mul (Py.float_of_Z quantity) (Unit_Price product) |} in
        (set_current_cart (current_cart app ++ [cart_item]) app, [])
  end.

(** [add_to_cart] followed by the dialog's button; [selection] is the id
    in the selected row of the product list, if a row is selected. *)
Definition add_to_cart (selection : option string) (qty_var : option Z)
    (app : App) : App * list Dialog :=
  match selection with
  | None => (app, [showwarning "Warning" (Text "Please select a product first!")])
  | Some product_id =>
      match find_product product_id (inventory app) with
      | None => (app, [callback_exception Py.IndexError])
      | Some (_, product) => add_item product_id product qty_var app
      end
  end.

(** [remove_from_cart]; [selection] is the position of the selected row
    of the cart display, if a row is selected.  [list.pop] raises
    [IndexError] past the end of the list. *)
Definition remove_from_cart (selection : option nat) (app : App)
  : App * list Dialog :=
  match selection with
  | None => (app, [showwarning "Warning" (Text "Please select an item to remove!")])
  | Some item_index =>
      match current_cart app !! item_index with
      | None => (app, [callback_exception Py.IndexError])
      | Some _ => (set_current_cart (delete item_index (current_cart app)) app, [])
      end
  end.

(** [clear_cart] *)
Definition clear_cart (app : App) : App := set_current_cart [] app.

(** ** Stock update *)

(** The inner function [update_stock] of [update_stock_dialog];
    [stock_var] is the result of [int(stock_var.get())].  The assignment to
    the [int64] column raises [OverflowError] for a number past 2^63 - 1,
    which the last handler reports. *)
Definition update_stock (product_id : string) (stock_var : option Z)
    (app : App) : App * list Dialog :=
  match stock_var with
  | None => (app, [showerror "Error" (Text "Please enter a valid number!")])
  | Some new_quantity =>
      if new_quantity <? 0
      then (app, [showerror "Error" (Text "Stock quantity cannot be negative!")])
      else
        match find_product product_id (inventory app) with
        | None => (app, [showerror "Error" (ErrorUpdatingStock Py.IndexError)])
        | Some (idx, p) =>
            if 2 ^ 63 <=? new_quantity
            then (app, [showerror "Error" (ErrorUpdatingStock Py.OverflowError)])
            else
              (set_inventory (<[idx := set_stock new_quantity p]> (inventory app)) app,
               [showinfo "Success" (Text "Stock updated successfully!")])
        end
  end.

(** [update_stock_dialog] followed by the dialog's button; [selection] is
    the position of the selected row of the inventory table.  The table is
    the one [refresh_inventory_display] has drawn, which every handler that
    completes a change of the inventory calls, so it shows the rows of the
    inventory in row order.  The dialog reads the stock column of the
    selected row with [.split(' ')]: the column holds the text
    [f"{stock} (LOW!)"] for a row at or below its minimum level and the
    number itself for any other row, on which [.split] raises
    [AttributeError] before the dialog opens.  A position past the end
    selects nothing. *)
Definition update_stock_dialog (selection : option nat) (stock_var : option Z)
    (app : App) : App * list Dialog :=
  match selection with
  | None =>
      (app, [showwarning "Warning" (Text "Please select a product from inventory!")])
  | Some i =>
      match inventory app !! i with
      | None =>
          (app, [showwarning "Warning" (Text "Please select a product from inventory!")])
      | Some row =>
          if Stock_Quantity row <=? Min_Stock_Level row
          then update_stock (Product_ID row) stock_var app
          else (app, [callback_exception Py.AttributeError])
      end
  end.

(** ** Checkout *)

(** [f"S{len(self.sales_records) + 1:04d}"] *)
Definition sale_id (sales : list SaleRecord) : string :=
  String "S" (Py.format_d 4 (Z.of_nat (length sales) + 1)).

(** The dict [sale_record] built for one cart line. *)
Definition sale_record (sale_id date time customer_id customer_name payment : string)
    (item : CartItem) : SaleRecord :=
  {| Sale_ID := sale_id;
     Sale_Date := date;
     Sale_Time := time;
     Sale_Customer_ID := customer_id;
     Sale_Customer_Name := customer_name;
     Sale_Product_ID := product_id item;
     Sale_Product_Name := product_name item;
     Quantity := quantity item;
     Sale_Unit_Price := unit_price item;
     Total_Amount := total item;
     Payment_Method := payment |}.

(** What the loop over the cart reads and writes. *)
Record SaleLoop := {
  loop_inventory : list Product;
  loop_sales : list SaleRecord;
  total_sale_amount : float
}.

(** The body of [for item in self.current_cart]: the row is appended first,
    then the stock of the first product with that id is lowered;
    [index[0]] raises [IndexError] when no product has the id, and the loop
    stops there with what it has written so far.  [Stock_Quantity] is an
    [int64] column and the subtraction is numpy's, which wraps; the quantity
    of a cart line is at most a stock (see [add_item]) and so an [int64]
    too. *)
Fixpoint sale_loop (mk : CartItem -> SaleRecord) (cart : list CartItem)
    (s : SaleLoop) : SaleLoop * option Py.Exn :=
  match cart with
  | [] => (s, None)
  | item :: rest =>
      let sales := loop_sales s ++ [mk item] in
      match find_product (product_id item) (loop_inventory s) with
      | None =>
          ({| loop_inventory := loop_inventory s; loop_sales := sales;
              total_sale_amount := total_sale_amount s |}, Some Py.IndexError)
      | Some (idx, p) =>
          sale_loop mk rest
            {| loop_inventory :=
                 <[idx := set_stock (Py.wrap64 (Stock_Quantity p - quantity item)) p]>
                   (loop_inventory s);
               loop_sales := sales;
               total_sale_amount := PrimFloat.add (total_sale_amount s) (total item) |}
      end
  end.

(** The state the loop starts from: the two tables, and
    [total_sale_amount = 0]. *)
Definition loop_start (app : App) : SaleLoop :=
  {| loop_inventory := inventory app; loop_sales := sales_records app;
     total_sale_amount := Py.float_of_Z 0 |}.

(** The update of [Total_Purchases]: the first customer with the id, and
    nothing when there is none. *)
Definition credit_customer (customer_id : string) (amount : float)
    (cs : list Customer) : list Customer :=
  match find_customer customer_id cs with
  | Some (cust_idx, c) =>
      <[cust_idx := set_total_purchases (PrimFloat.add (Total_Purchases c) amount) c]> cs
  | None => cs
  end.

(** [process_sale]; [date] and [time] are the two renderings of
    [datetime.now()]. *)
Definition process_sale (date time : string) (app : App) : App * list Dialog :=
  match current_cart app with
  | [] => (app, [showwarning "Warning" (Text "Cart is empty!")])
  | _ :: _ =>
      let customer_info := customer_var app in
      if negb (Py.str_truth customer_info)
      then (app, [showwarning "Warning" (Text "Please select a customer!")])
      else
        match Py.split " - " customer_info with
        | customer_id :: customer_name :: _ =>
            let sid := sale_id (sales_records app) in
            let mk := sale_record sid date time customer_id customer_name
                        (payment_var app) in
            match sale_loop mk (current_cart app) (loop_start app) with
            | (s, Some e) =>
                (set_sales_records (loop_sales s)
                   (set_inventory (loop_inventory s) app),
                 [showerror "Error" (ErrorProcessingSale e)])
            | (s, None) =>
                (clear_cart
                   (set_customers
                      (credit_customer customer_id (total_sale_amount s)
                         (customers app))
                      (set_sales_records (loop_sales s)
                         (set_inventory (loop_inventory s) app))),
                 [showinfo "Success" (SaleProcessed sid (total_sale_amount s))])
            end
        | _ => (app, [showerror "Error" (ErrorProcessingSale Py.IndexError)])
        end
  end.

(** ** New products and customers *)

(** The id generator shared by [save_product] (letter P) and
    [save_customer] (letter C): [ids] is the id column. *)
Definition new_id (letter : ascii) (ids : list string) : option string :=
  match last ids with
  | Some last_id =>
      new_id_num ← (fun n => n + 1) <$> Py.int_of_string (Py.tail last_id);
      Some (String letter (Py.format_d 3 new_id_num))
  | None => Some (String letter "001")
  end.

(** The entries of the product dialog; the three numeric ones hold the
    results of [float(price_var.get())], [int(stock_var.get())] and
    [int(min_stock_var.get())]. *)
Record ProductForm := {
  name_var : string;
  category_var : string;
  price_var : option float;
  stock_var : option Z;
  min_stock_var : option Z;
  supplier_var : string
}.

(** The inner function [save_product] of [add_product_dialog].  Every
    conversion that fails raises [ValueError], which one handler reports. *)
Definition save_product (form : ProductForm) (app : App) : App * list Dialog :=
  let invalid :=
    (app, [showerror "Error"
             (Text "Please enter valid numbers for price and quantities!")]) in
  match new_id "P" (Product_ID <$> inventory app) with
  | None => invalid
  | Some new_product_id =>
      match price_var form, stock_var form, min_stock_var form with
      | Some price, Some stock, Some min_stock =>
          let new_product :=
            {| Product_ID := new_product_id;
               Product_Name := name_var form;
               Category := category_var form;
               Unit_Price := price;
               Stock_Quantity := stock;
               Min_Stock_Level := min_stock;
               Supplier := supplier_var form |} in
          if negb (Py.str_truth (Product_Name new_product)
                   && Py.str_truth (Category new_product)
                   && Py.float_truth (Unit_Price new_product)
                   && Py.str_truth (Supplier new_product))
          then (app, [showerror "Error" (Text "All fields are required!")])
          else (set_inventory (inventory app ++ [new_product]) app,
                [showinfo "Success" (ProductAdded new_product_id)])
      | _, _, _ => invalid
      end
  end.

(** The entries of the customer dialog. *)
Record CustomerForm := {
  cust_name_var : string;
  phone_var : string;
  email_var : string;
  address_text : string
}.

(** The inner function [save_customer] of [add_new_customer]; [today] is
    the rendering of [datetime.now()]. *)
Definition save_customer (today : string) (form : CustomerForm) (app : App)
  : App * list Dialog :=
  match new_id "C" (Customer_ID <$> customers app) with
  | None => (app, [showerror "Error" (ErrorAddingCustomer Py.ValueError)])
  | Some new_customer_id =>
      let new_customer :=
        {| Customer_ID := new_customer_id;
           Customer_Name := cust_name_var form;
           Phone := phone_var form;
           Email := email_var form;
           Address := Py.strip (address_text form);
           Registration_Date := today;
           Total_Purchases := 0%float |} in
      if negb (Py.str_truth (Customer_Name new_customer))
      then (app, [showerror "Error" (Text "Customer name is required!")])
      else
        (set_customer_var
           (new_customer_id +:+ " - " +:+ Customer_Name new_customer)
           (set_customers (customers app ++ [new_customer]) app),
         [showinfo "Success" (CustomerAdded new_customer_id)])
  end.

(** ** Shopping lists *)

(** [add_to_shopping_list]; the three arguments are the entries of the
    form, [quantity] the result of [int(quantity)]. *)
Definition add_to_shopping_list (product_name : string) (quantity : option Z)
    (notes : string) (app : App) : App * list Dialog :=
  let customer_info := shopping_customer_var app in
  if (negb (Py.str_truth customer_info) || negb (Py.str_truth product_name))%bool
  then (app, [showwarning "Warning" (Text "Please select customer and product!")])
  else
    match quantity with
    | None => (app, [showerror "Error" (Text "Please enter a valid quantity!")])
    | Some quantity =>
        if quantity <=? 0
        then (app, [showerror "Error" (Text "Quantity must be positive!")])
        else
          let customer_id := hd EmptyString (Py.split " - " customer_info) in
          let items := default [] (shopping_lists app !! customer_id) in
          let list_item :=
            {| product := product_name; list_quantity := quantity;
               notes := notes |} in
          (set_shopping_lists
             (<[customer_id := items ++ [list_item]]> (shopping_lists app)) app,
           [showinfo "Success" (Text "Item added to shopping list!")])
    end.

(** What the loop of [add_shopping_list_to_cart] reads and writes; the
    warnings are the message boxes it has shown. *)
Record ListLoop := {
  loop_cart : list CartItem;
  items_added : Z;
  loop_dialogs : list Dialog
}.

(** The body of [for list_item in self.shopping_lists[customer_id]]. *)
Fixpoint list_loop (inv : list Product) (items : list ListItem) (s : ListLoop)
  : ListLoop :=
  match items with
  | [] => s
  | list_item :: rest =>
      match find_product_by_name (product list_item) inv with
      | Some (_, p) =>
          if Stock_Quantity p >=? list_quantity list_item
          then
            let cart_item :=
              {| product_id := Product_ID p;
                 product_name := Product_Name p;
                 quantity := list_quantity list_item;
                 unit_price := Unit_Price p;
                 total := PrimFloat.mul (Py.float_of_Z (list_quantity list_item))
                            (Unit_Price p) |} in
            list_loop inv rest
              {| loop_cart := loop_cart s ++ [cart_item];
                 items_added := items_added s + 1;
                 loop_dialogs := loop_dialogs s |}
          else
            list_loop inv rest
              {| loop_cart := loop_cart s;
                 items_added := items_added s;
                 loop_dialogs :=
                   loop_dialogs s ++
                   [showwarning "Stock Warning"
                      (NotEnoughStockFor (Product_Name p) (Stock_Quantity p)
                         (list_quantity list_item))] |}
      | None => list_loop inv rest s
      end
  end.

(** [add_shopping_list_to_cart]. *)
Definition add_shopping_list_to_cart (app : App) : App * list Dialog :=
  let customer_info := shopping_customer_var app in
  if negb (Py.str_truth customer_info)
  then (app, [showwarning "Warning" (Text "Please select a customer!")])
  else
    let customer_id := hd EmptyString (Py.split " - " customer_info) in
    match shopping_lists app !! customer_id with
    | None | Some [] =>
        (app, [showwarning "Warning" (Text "Shopping list is empty!")])
    | Some items =>
        let s := list_loop (inventory app) items
                   {| loop_cart := current_cart app; items_added := 0;
                      loop_dialogs := [] |} in
        (set_current_cart (loop_cart s) (set_customer_var customer_info app),
         loop_dialogs s ++
         [if items_added s >? 0
          then showinfo "Success" (ItemsAdded (items_added s))
          else showwarning "Warning" (Text "No items could be added to cart!")])
    end.

(** ** The state at first start *)

Definition sample_product (id name category : string) (price : float)
    (stock min_stock : Z) (supplier : string) : Product :=
  {| Product_ID := id; Product_Name := name; Category := category;
     Unit_Price := price; Stock_Quantity := stock;
     Min_Stock_Level := min_stock; Supplier := supplier |}.

(** [initialize_sample_inventory] *)
Definition sample_inventory : list Product :=
  [ sample_product "P001" "Rice (1kg)" "Grains" 80 50 10 "Supplier A";
    sample_product "P002" "Wheat Flour (1kg)" "Grains" 45 30 10 "Supplier A";
    sample_product "P003" "Sugar (1kg)" "Pantry" 42 25 5 "Supplier B";
    sample_product "P004" "Cooking Oil (1L)" "Pantry" 120 20 5 "Supplier C";
    sample_product "P005" "Milk (1L)" "Dairy" 60 15 5 "Supplier D";
    sample_product "P006" "Bread" "Bakery" 25 40 10 "Supplier E";
    sample_product "P007" "Eggs (12pcs)" "Dairy" 180 30 10 "Supplier D";
    sample_product "P008" "Tomatoes (1kg)" "Vegetables" 40 50 10 "Supplier F";
    sample_product "P009" "Onions (1kg)" "Vegetables" 30 40 10 "Supplier F";
    sample_product "P010" "Potatoes (1kg)" "Vegetables" 35 60 15 "Supplier F" ].

(** The attributes after [__init__] when no data file exists yet. *)
Definition first_start : App :=
  {| inventory := sample_inventory; sales_records := []; customers := [];
     shopping_lists := ∅; current_cart := []; customer_var := "";
     payment_var := "Cash"; shopping_customer_var := "" |}.

(** ** Shopping lists: removing and clearing *)

(** [remove_from_shopping_list]; [selection] is the position of the
    selected row of the list display, if a row is selected.  Nothing is
    shown, and nothing done, when the customer has no list or the position is
    past its end. *)
Definition remove_from_shopping_list (selection : option nat) (app : App)
  : App * list Dialog :=
  match selection with
  | None => (app, [showwarning "Warning" (Text "Please select an item to remove!")])
  | Some item_index =>
      let customer_info := shopping_customer_var app in
      if negb (Py.str_truth customer_info) then (app, [])
      else
        let customer_id := hd EmptyString (Py.split " - " customer_info) in
        match shopping_lists app !! customer_id with
        | Some items =>
            if (item_index <? length items)%nat
            then
              (set_shopping_lists
                 (<[customer_id := delete item_index items]> (shopping_lists app))
                 app,
               [showinfo "Success" (Text "Item removed from shopping list!")])
            else (app, [])
        | None => (app, [])
        end
  end.

(** [clear_shopping_list]; [confirmed] is the answer to the [askyesno]
    box. *)
Definition clear_shopping_list (confirmed : bool) (app : App)
  : App * list Dialog :=
  let customer_info := shopping_customer_var app in
  if negb (Py.str_truth customer_info)
  then (app, [showwarning "Warning" (Text "Please select a customer!")])
  else if confirmed
  then
    let customer_id := hd EmptyString (Py.split " - " customer_info) in
    (set_shopping_lists (<[customer_id := []]> (shopping_lists app)) app,
     [showinfo "Success" (Text "Shopping list cleared!")])
  else (app, []).

(** ** What the displays show *)

(** [update_cart_display]: the amount put in [total_var], the line totals
    added up in cart order from 0. *)
Definition cart_display_total (cart : list CartItem) : float :=
  foldl (fun total_amount item => PrimFloat.add total_amount (total item))
        (Py.float_of_Z 0) cart.

(** [refresh_customer_list]: the entries given to the two customer combo
    boxes, [f"{row['Customer_ID']} - {row['Customer_Name']}"]. *)
Definition customer_names (cs : list Customer) : list string :=
  (fun row => Customer_ID row +:+ " - " +:+ Customer_Name row) <$> cs.

(** [load_customer_shopping_list]: the rows of the list display after the
    call, [shown] being the rows before it.  With no customer chosen the
    display is left as it is; otherwise it is emptied and filled with the
    list of the customer in [shopping_customer_var], if there is one. *)
Definition load_customer_shopping_list (shown : list (string * Z * string))
    (app : App) : list (string * Z * string) :=
  let customer_info := shopping_customer_var app in
  if negb (Py.str_truth customer_info) then shown
  else
    let customer_id := hd EmptyString (Py.split " - " customer_info) in
    match shopping_lists app !! customer_id with
    | Some items => (fun item => (product item, list_quantity item, notes item)) <$> items
    | None => []
    end.

(** [sub in s] for two strings. *)
Fixpoint contains (sub s : string) : bool :=
  String.prefix sub s ||
  match s with
  | EmptyString => false
  | String _ r => contains sub r
  end.

Section Search.

(** [str.lower], which the model does not fix: Python lowers by Unicode
    code point. *)
Variable lower : string -> string.

(** [filter_products]: the rows put in the product list for the text in
    the search box (id, name, price, stock). *)
Definition filter_products (search_var : string) (inv : list Product)
  : list (string * string * float * Z) :=
  let search_term := lower search_var in
  (fun row => (Product_ID row, Product_Name row, Unit_Price row, Stock_Quantity row))
  <$> filter (fun row =>
                contains search_term (lower (Product_Name row))
                || contains search_term (lower (Product_ID row)) = true) inv.

End Search.

(** The product list as [refresh_inventory_display] fills it: every row of
    the inventory. *)
Definition product_tree_rows (inv : list Product)
  : list (string * string * float * Z) :=
  (fun row => (Product_ID row, Product_Name row, Unit_Price row, Stock_Quantity row))
  <$> inv.

(** [str.lower] on ASCII letters, every other character kept. *)
Definition ascii_lower_char (c : ascii) : ascii :=
  let n := nat_of_ascii c in
  if ((65 <=? n) && (n <=? 90))%nat then ascii_of_nat (n + 32) else c.

Fixpoint ascii_lower (s : string) : string :=
  match s with
  | EmptyString => EmptyString
  | String c r => String (ascii_lower_char c) (ascii_lower r)
  end.

(** [show_low_stock]: the list [low_stock_items]; the report says "All
    products are adequately stocked!" when it is empty and lists its rows
    otherwise. *)
Definition low_stock_items (inv : list Product) : list Product :=
  filter (fun row => Stock_Quantity row ≤ Min_Stock_Level row) inv.

(** [generate_daily_report]: the rows of the day. *)
Definition today_sales (today : string) (sales : list SaleRecord)
  : list SaleRecord :=
  filter (fun r => Sale_Date r = today) sales.

(** [generate_daily_report]: the line "Total Transactions", the number of
    distinct sale ids among the rows of the day; [None] is the report "No
    sales recorded for today.".  (The amounts of the report are sums pandas
    computes and are not modelled.) *)
Definition total_transactions (today : string) (sales : list SaleRecord)
  : option nat :=
  match today_sales today sales with
  | [] => None
  | rows => Some (length (remove_dups (Sale_ID <$> rows)))
  end.

(** ** Runs of the program *)

(** What the user can do to the state: press a button of the modelled
    handlers, or put a text in one of the two customer boxes or in the
    payment box (which are not read-only, so any text can be put there). *)
Inductive Action :=
  | AddToCart (selection : option string) (qty_var : option Z)
  | RemoveFromCart (selection : option nat)
  | ClearCart
  | ProcessSale (date time : string)
  | UpdateStock (selection : option nat) (stock_var : option Z)
  | SaveProduct (form : ProductForm)
  | SaveCustomer (today : string) (form : CustomerForm)
  | SetCustomer (text : string)
  | SetShoppingCustomer (text : string)
  | AddToShoppingList (product_name : string) (quantity : option Z) (notes : string)
  | AddShoppingListToCart
  | RemoveFromShoppingList (selection : option nat)
  | ClearShoppingList (confirmed : bool)
  | SetPayment (text : string).

Definition run (a : Action) (app : App) : App * list Dialog :=
  match a with
  | AddToCart selection qty_var => add_to_cart selection qty_var app
  | RemoveFromCart selection => remove_from_cart selection app
  | ClearCart => (clear_cart app, [])
  | ProcessSale date time => process_sale date time app
  | UpdateStock selection stock_var => update_stock_dialog selection stock_var app
  | SaveProduct form => save_product form app
  | SaveCustomer today form => save_customer today form app
  | SetCustomer text => (set_customer_var text app, [])
  | SetShoppingCustomer text => (set_shopping_customer_var text app, [])
  | AddToShoppingList product_name quantity notes =>
      add_to_shopping_list product_name quantity notes app
  | AddShoppingListToCart => add_shopping_list_to_cart app
  | RemoveFromShoppingList selection => remove_from_shopping_list selection app
  | ClearShoppingList confirmed => clear_shopping_list confirmed app
  | SetPayment text => (set_payment_var text app, [])
  end.

(** The state after a sequence of actions. *)
Definition run_all (actions : list Action) (app : App) : App :=
  foldl (fun st a => (run a st).1) app actions.

(** ** The specification's reading of two operations

    Two definitions that follow the words of the specification, to be
    compared with what the handlers compute. *)

(** "count of existing distinct sale ids + 1". *)
Definition spec_sale_id (sales : list SaleRecord) : string :=
  String "S"
    (Py.format_d 4 (Z.of_nat (length (remove_dups (Sale_ID <$> sales))) + 1)).

(** "fails if name, category, or supplier is empty, or price is not a
    non-negative number": the forms the specification accepts. *)
(** "Zero-padded to the same width": the new id is as long as the last
    one. *)
Definition spec_same_width (ids : list string) (id : string) : Prop :=
  ∀ last_id, last ids = Some last_id → String.length id = String.length last_id.

Definition spec_valid (form : ProductForm) : Prop :=
  name_var form ≠ "" ∧ category_var form ≠ "" ∧ supplier_var form ≠ "" ∧
  ∃ price, price_var form = Some price ∧ PrimFloat.leb 0%float price = true.

(** ** Notions used in the statements *)

(** The state a sale that ran to its end leaves. *)
Definition sale_done (customer_id : string) (s : SaleLoop) (app : App) : App :=
  clear_cart
    (set_customers
       (credit_customer customer_id (total_sale_amount s) (customers app))
       (set_sales_records (loop_sales s) (set_inventory (loop_inventory s) app))).

(** Total quantity the cart asks of the product [id]. *)
Definition sold (id : string) (cart : list CartItem) : Z :=
  foldr (fun item acc =>
           if decide (product_id item = id) then quantity item + acc else acc)
        0 cart.

(** Position of the first row with the id, the row a sale of [id] lowers. *)
Definition first_index (id : string) (inv : list Product) : option nat :=
  fst <$> find_product id inv.

(** A ledger row repeats a cart line. *)
Definition copies_line (item : CartItem) (r : SaleRecord) : Prop :=
  Sale_Product_ID r = product_id item ∧
  Sale_Product_Name r = product_name item ∧
  Quantity r = quantity item ∧
  Sale_Unit_Price r = unit_price item ∧
  Total_Amount r = total item.

(** A cart line was taken from a row of the inventory: id, name and price
    are the row's and the total is quantity times that price. *)
Definition taken_from (inv : list Product) (item : CartItem) : Prop :=
  ∃ p, p ∈ inv ∧
    product_id item = Product_ID p ∧
    product_name item = Product_Name p ∧
    unit_price item = Unit_Price p ∧
    total item = PrimFloat.mul (Py.float_of_Z (quantity item)) (Unit_Price p).

(** What a row of the inventory offers: id, name and price. *)
Definition offer (p : Product) : string * string * float :=
  (Product_ID p, Product_Name p, Unit_Price p).

(** Every line of the cart was taken from a row of the inventory as it is
    now. *)
Definition cart_follows_catalog (app : App) : Prop :=
  Forall (taken_from (inventory app)) (current_cart app).

(** The cart line a shopping-list item becomes, if it becomes one. *)
Definition line_for (inv : list Product) (it : ListItem) : option CartItem :=
  match find_product_by_name (product it) inv with
  | Some (_, p) =>
      if Stock_Quantity p >=? list_quantity it
      then Some {| product_id := Product_ID p;
                   product_name := Product_Name p;
                   quantity := list_quantity it;
                   unit_price := Unit_Price p;
                   total := PrimFloat.mul (Py.float_of_Z (list_quantity it))
                              (Unit_Price p) |}
      else None
  | None => None
  end.

(** The stock warning a shopping-list item causes, if it causes one. *)
Definition warning_for (inv : list Product) (it : ListItem) : option Dialog :=
  match find_product_by_name (product it) inv with
  | Some (_, p) =>
      if Stock_Quantity p >=? list_quantity it then None
      else Some (showwarning "Stock Warning"
                   (NotEnoughStockFor (Product_Name p) (Stock_Quantity p)
                      (list_quantity it)))
  | None => None
  end.



(** [save_product] has added the product. *)
Definition product_added (form : ProductForm) (app : App) : Prop :=
  ∃ id, (save_product form app).2 = [showinfo "Success" (ProductAdded id)].

(** Strings made of decimal digits only. *)
Fixpoint digits_only (s : string) : bool :=
  match s with
  | EmptyString => true
  | String c r => Py.is_digit c && digits_only r
  end.

(** ** Notions used in the further properties *)

(** No character of the string is a space. *)
Fixpoint no_space (s : string) : bool :=
  match s with
  | EmptyString => true
  | String c r => negb (Ascii.eqb c " ") && no_space r
  end.

(** The id column of a table whose [n] rows all got their id from
    [new_id]: the letter and 001, 002, ... in row order. *)
Definition numbered_ids (letter : ascii) (n : nat) : list string :=
  (fun k => String letter (Py.format_d 3 (Z.of_nat k))) <$> seq 1 n.

Definition ids_sequential (app : App) : Prop :=
  Product_ID <$> inventory app = numbered_ids "P" (length (inventory app)) ∧
  Customer_ID <$> customers app = numbered_ids "C" (length (customers app)).

(** Every row of the ledger carries the id of a sale numbered from 1 to
    the number of rows. *)
Definition ledger_numbered (sales : list SaleRecord) : Prop :=
  Forall (fun r =>
            ∃ k : nat, (1 ≤ k ≤ length sales)%nat ∧
                       Sale_ID r = String "S" (Py.format_d 4 (Z.of_nat k)))
         sales.

(** Cart lines, ledger rows and shopping-list items all have a quantity of
    at least 1. *)
Definition quantities_positive (app : App) : Prop :=
  Forall (fun item => 0 < quantity item) (current_cart app) ∧
  Forall (fun r => 0 < Quantity r) (sales_records app) ∧
  map_Forall (fun _ items => Forall (fun it => 0 < list_quantity it) items)
             (shopping_lists app).

(** No row of the inventory has a negative stock. *)
Definition stock_nonnegative (inv : list Product) : Prop :=
  Forall (fun p => 0 ≤ Stock_Quantity p) inv.

(** ** Scenarios *)

Definition john : CustomerForm :=
  {| cust_name_var := "John"; phone_var := "555-0100"; email_var := "";
     address_text := "" |}.

(** First start, then customer C001 is registered (and selected). *)
Definition shop_with_customer : App :=
  (save_customer "2024-01-01" john first_start).1.

(** Three units of P001 put in the cart. *)
Definition rice_cart : App :=
  (add_to_cart (Some "P001") (Some 3) shop_with_customer).1.

(** Two cart lines of 30 units of P001 each, of which 50 are in stock. *)
Definition double_rice_cart : App :=
  (add_to_cart (Some "P001") (Some 30)
     (add_to_cart (Some "P001") (Some 30) shop_with_customer).1).1.

(** Ten of the 15 units of P005 are sold: 5 are left, which is the minimum
    level of P005, so the inventory table shows the row as low. *)
Definition low_milk : App :=
  (process_sale "2024-01-02" "10:00:00"
     (add_to_cart (Some "P005") (Some 10) shop_with_customer).1).1.

(** After that sale the remaining 5 units of P005 are put in the cart, and
    the stock of P005 (row 4 of the inventory table) is then set to 2 in the
    stock dialog. *)
Definition stale_milk_cart : App :=
  (update_stock_dialog (Some 4%nat) (Some 2)
     (add_to_cart (Some "P005") (Some 5) low_milk).1).1.

(** One sale of two line items (one unit each of P001 and P002) is in the
    ledger, and one unit of P003 is in the cart for the next sale. *)
Definition second_sale_cart : App :=
  (add_to_cart (Some "P003") (Some 1)
     (process_sale "2024-01-02" "10:00:00"
        (add_to_cart (Some "P002") (Some 1)
           (add_to_cart (Some "P001") (Some 1) shop_with_customer).1).1).1).1.

(** The cart of [rice_cart] with a customer text typed by hand that names
    no registered customer. *)
Definition ghost_cart : App := set_customer_var "C999 - Ghost" rice_cart.

(** Customer C001 has listed 2 of "Rice (1kg)", which the catalog holds,
    and 1 of "Dragon Fruit", which it does not. *)
Definition list_with_unknown_item : App :=
  (add_to_shopping_list "Dragon Fruit" (Some 1) ""
     (add_to_shopping_list "Rice (1kg)" (Some 2) ""
        (set_shopping_customer_var "C001 - John" shop_with_customer)).1).1.

(** A new product with every entry filled in. *)
Definition biscuits_form : ProductForm :=
  {| name_var := "Biscuits"; category_var := "Snacks";
     price_var := Some 25%float; stock_var := Some 40;
     min_stock_var := Some 8; supplier_var := "Supplier B" |}.

(** That product added 989 times over, which brings the catalog of the
    first start to 999 rows. *)
Definition many_products : list Action :=
  replicate 989 (SaveProduct biscuits_form).

(** A product given away: every entry filled in, price 0. *)
Definition free_sample_form : ProductForm :=
  {| name_var := "Free Sample"; category_var := "Snacks";
     price_var := Some 0%float; stock_var := Some 5;
     min_stock_var := Some 1; supplier_var := "Supplier A" |}.

(** * Properties *)

(** ** Records *)

Lemma set_stock_id q p : Product_ID (set_stock q p) = Product_ID p.
Proof. reflexivity. Qed.

Lemma set_stock_same p : set_stock (Stock_Quantity p) p = p.
Proof. by destruct p. Qed.

Lemma set_stock_twice q q' p : set_stock q (set_stock q' p) = set_stock q p.
Proof. reflexivity. Qed.

(** ** The [int64] column *)

Lemma wrap64_in_int64 z : Py.in_int64 z → Py.wrap64 z = z.
Proof.
  unfold Py.in_int64, Py.wrap64. intros H.
  rewrite Z.mod_small by lia. lia.
Qed.

Lemma wrap64_range z : Py.in_int64 (Py.wrap64 z).
Proof.
  unfold Py.in_int64, Py.wrap64.
  pose proof (Z.mod_pos_bound (z + 2 ^ 63) (2 ^ 64)). lia.
Qed.

(** Wrapping after every subtraction is wrapping once at the end. *)
Lemma wrap64_sub a b : Py.wrap64 (Py.wrap64 a - b) = Py.wrap64 (a - b).
Proof.
  unfold Py.wrap64. f_equal.
  replace ((a + 2 ^ 63) mod 2 ^ 64 - 2 ^ 63 - b + 2 ^ 63)
    with ((a + 2 ^ 63) mod 2 ^ 64 + (- b)) by lia.
  replace (a - b + 2 ^ 63) with ((a + 2 ^ 63) + (- b)) by lia.
  apply Zplus_mod_idemp_l.
Qed.

(** ** Lookups by id *)

Lemma first_index_ids id inv :
  first_index id inv = fst <$> list_find (fun x => x = id) (Product_ID <$> inv).
Proof.
  unfold first_index, find_product.
  induction inv as [|p inv IH]; [done|]. csimpl.
  case_decide; [done|].
  destruct (list_find (fun p => Product_ID p = id) inv) as [[i q]|],
           (list_find (fun x => x = id) (Product_ID <$> inv)) as [[j y]|];
    simpl in *; congruence.
Qed.

Lemma ids_set_stock (inv : list Product) (idx : nat) p q :
  inv !! idx = Some p →
  Product_ID <$> <[idx := set_stock q p]> inv = Product_ID <$> inv.
Proof.
  intros H. rewrite list_fmap_insert. apply list_insert_id.
  by rewrite list_lookup_fmap, H.
Qed.

Lemma first_index_set_stock id (inv : list Product) (idx : nat) p q :
  inv !! idx = Some p →
  first_index id (<[idx := set_stock q p]> inv) = first_index id inv.
Proof. intros H. by rewrite !first_index_ids, (ids_set_stock _ _ _ _ H). Qed.

Lemma find_product_Some id (inv : list Product) i p :
  find_product id inv = Some (i, p) →
  inv !! i = Some p ∧ Product_ID p = id ∧ first_index id inv = Some i.
Proof.
  intros H. unfold first_index. rewrite H. split_and!; [| |done].
  - by apply list_find_Some in H as (? & ? & ?).
  - by apply list_find_Some in H as (? & ? & ?).
Qed.

Lemma find_product_is_Some id (inv : list Product) :
  id ∈ Product_ID <$> inv → is_Some (find_product id inv).
Proof.
  intros (p & -> & Hp)%list_elem_of_fmap.
  by apply (list_find_elem_of _ _ p).
Qed.

(** ** Stock update *)

(** The dialog either leaves the state as it is or stores, in one row, a
    stock between 0 and 2^63 - 1. *)
Lemma update_stock_dialog_inventory selection stock_var app :
  (update_stock_dialog selection stock_var app).1 = app ∨
  ∃ (idx : nat) p q,
    inventory app !! idx = Some p ∧ 0 ≤ q < 2 ^ 63 ∧
    (update_stock_dialog selection stock_var app).1
    = set_inventory (<[idx := set_stock q p]> (inventory app)) app.
Proof.
  unfold update_stock_dialog, update_stock.
  destruct selection as [i|]; [|by left].
  destruct (inventory app !! i) as [row|]; [|by left].
  destruct (_ <=? _); [|by left].
  destruct stock_var as [q|]; [|by left].
  destruct (q <? 0) eqn:E0; [by left|].
  destruct (find_product _ _) as [[idx p]|] eqn:E; [|by left].
  destruct (2 ^ 63 <=? q) eqn:E1; [by left|].
  right. exists idx, p, q. apply find_product_Some in E as (Hp & _).
  split_and!; [done|lia|lia|done].
Qed.

(** Splits a goal about [update_stock_dialog] into these two cases. *)
Ltac stock_dialog_cases idx p q Hp Hq :=
  match goal with
  | |- context [update_stock_dialog ?sel ?var ?app] =>
      destruct (update_stock_dialog_inventory sel var app)
        as [->|(idx & p & q & Hp & Hq & ->)]
  end.

(** ** The loop of [process_sale] *)

Section SaleLoop.
Variable mk : CartItem -> SaleRecord.

(** The rows written are the images of a prefix of the cart, in order. *)
Lemma sale_loop_sales cart s :
  ∃ n, loop_sales (sale_loop mk cart s).1
       = loop_sales s ++ (mk <$> take n cart).
Proof.
  revert s. induction cart as [|item rest IH]; intros s; simpl.
  - exists 0%nat. by rewrite app_nil_r.
  - destruct (find_product _ _) as [[idx p]|]; simpl.
    + match goal with
      | |- context [sale_loop mk rest ?s1] => destruct (IH s1) as [n Hn]
      end.
      exists (S n). rewrite Hn. simpl. by rewrite <- app_assoc.
    + by exists 1%nat.
Qed.

(** When the loop runs to its end, every cart line has its row. *)
Lemma sale_loop_sales_ok cart s s' :
  sale_loop mk cart s = (s', None) →
  loop_sales s' = loop_sales s ++ (mk <$> cart).
Proof.
  revert s. induction cart as [|item rest IH]; intros s; simpl.
  - intros [= <-]. by rewrite app_nil_r.
  - destruct (find_product _ _) as [[idx p]|]; [|done].
    intros H. apply IH in H. rewrite H. simpl. by rewrite <- app_assoc.
Qed.

(** The loop changes stock only: the id column is as before. *)
Lemma sale_loop_ids cart s :
  Product_ID <$> loop_inventory (sale_loop mk cart s).1
  = Product_ID <$> loop_inventory s.
Proof.
  revert s. induction cart as [|item rest IH]; intros s; simpl; [done|].
  destruct (find_product _ _) as [[idx p]|] eqn:E; [|done].
  rewrite IH. simpl. apply ids_set_stock.
  by apply find_product_Some in E as (? & _).
Qed.

(** The loop runs to its end when every cart line names a product of
    the inventory. *)
Lemma sale_loop_resolves cart s :
  Forall (fun item => product_id item ∈ Product_ID <$> loop_inventory s) cart →
  (sale_loop mk cart s).2 = None.
Proof.
  revert s. induction cart as [|item rest IH]; intros s H; simpl; [done|].
  apply Forall_cons in H as [Hitem Hrest].
  destruct (find_product_is_Some _ _ Hitem) as [[idx p] E]. rewrite E.
  apply IH. simpl. rewrite (ids_set_stock _ _ _ _ (proj1 (find_product_Some _ _ _ _ E))).
  done.
Qed.

(** The amount accumulated is the sum of the line totals, added in cart
    order. *)
Lemma sale_loop_total cart s s' :
  sale_loop mk cart s = (s', None) →
  total_sale_amount s'
  = foldl (fun acc item => PrimFloat.add acc (total item))
          (total_sale_amount s) cart.
Proof.
  revert s. induction cart as [|item rest IH]; intros s; simpl.
  - by intros [= <-].
  - destruct (find_product _ _) as [[idx p]|]; [|done].
    intros H. by apply IH in H.
Qed.

(** Stock after a loop that ran to its end: the row at the first position
    of an id loses everything the cart asks of that id, whatever it holds,
    in the arithmetic of the [int64] column; every other row is as
    before. *)
Lemma sale_loop_stock cart s s' :
  sale_loop mk cart s = (s', None) →
  ∀ i p, loop_inventory s !! i = Some p →
    Py.in_int64 (Stock_Quantity p) →
    loop_inventory s' !! i
    = Some (set_stock
              (Py.wrap64
                 (Stock_Quantity p
                  - (if decide (first_index (Product_ID p) (loop_inventory s) = Some i)
                     then sold (Product_ID p) cart else 0))) p).
Proof.
  revert s. induction cart as [|item rest IH]; intros s; simpl.
  - intros [= <-] i p Hp Hin. rewrite Hp. f_equal.
    rewrite <- (set_stock_same p) at 1. f_equal.
    rewrite wrap64_in_int64; case_decide; (lia || by rewrite Z.sub_0_r).
  - destruct (find_product _ _) as [[idx q]|] eqn:E; [|done].
    apply find_product_Some in E as (Hq & Hid & Hfirst).
    intros H i p Hp Hin.
    specialize (IH _ H i). simpl in IH.
    destruct (decide (i = idx)) as [->|Hne].
    + assert (p = q) as -> by congruence.
      rewrite list_lookup_insert_eq in IH by (by eapply lookup_lt_Some).
      rewrite (IH _ eq_refl (wrap64_range _)).
      rewrite set_stock_twice, set_stock_id. simpl.
      rewrite first_index_set_stock by done.
      rewrite Hid, Hfirst. rewrite !decide_True by done.
      f_equal. f_equal. rewrite wrap64_sub. f_equal. lia.
    + rewrite list_lookup_insert_ne in IH by done.
      rewrite (IH _ Hp Hin). rewrite first_index_set_stock by done.
      f_equal. f_equal. f_equal. f_equal.
      destruct (decide (first_index (Product_ID p) (loop_inventory s) = Some i))
        as [Hf|]; [|done].
      destruct (decide (product_id item = Product_ID p)) as [Hi|]; [|done].
      rewrite <- Hi, Hfirst in Hf. congruence.
Qed.
End SaleLoop.

(** ** [process_sale] as a whole *)

Lemma split_empty sep s : Py.str_truth s = false → Py.split sep s = [""].
Proof. by destruct s. Qed.

(** The sale goes through when the cart is not empty, the customer text
    splits in two and the loop meets no unknown product. *)
Lemma process_sale_ok date time app customer_id customer_name rest s :
  current_cart app ≠ [] →
  Py.split " - " (customer_var app) = customer_id :: customer_name :: rest →
  sale_loop (sale_record (sale_id (sales_records app)) date time customer_id
               customer_name (payment_var app))
            (current_cart app) (loop_start app) = (s, None) →
  process_sale date time app
  = (sale_done customer_id s app,
     [showinfo "Success"
        (SaleProcessed (sale_id (sales_records app)) (total_sale_amount s))]).
Proof.
  intros Hcart Hsplit Hloop. unfold process_sale.
  destruct (current_cart app) as [|item cart] eqn:Ec; [done|].
  destruct (Py.str_truth (customer_var app)) eqn:Et; cbn [negb].
  - rewrite Hsplit. cbv zeta. by rewrite Hloop.
  - by rewrite (split_empty _ _ Et) in Hsplit.
Qed.

(** Conversely, a success dialog is shown on that path only. *)
Lemma process_sale_success date time app app' sid amount :
  process_sale date time app
  = (app', [showinfo "Success" (SaleProcessed sid amount)]) →
  ∃ customer_id customer_name rest s,
    current_cart app ≠ [] ∧
    Py.split " - " (customer_var app) = customer_id :: customer_name :: rest ∧
    sale_loop (sale_record (sale_id (sales_records app)) date time customer_id
                 customer_name (payment_var app))
              (current_cart app) (loop_start app) = (s, None) ∧
    sid = sale_id (sales_records app) ∧
    amount = total_sale_amount s ∧
    app' = sale_done customer_id s app.
Proof.
  unfold process_sale.
  destruct (current_cart app) as [|item cart] eqn:Ec; [done|].
  destruct (negb _); [done|].
  destruct (Py.split _ _) as [|customer_id [|customer_name rest]]; [done..|].
  cbv zeta.
  destruct (sale_loop _ _ _) as [s [e|]] eqn:El; [done|].
  intros [= <- <- <-]. by exists customer_id, customer_name, rest, s.
Qed.

(** Stock after a sale that went through: the first row of each id loses
    what the cart asks of that id, with no regard to what the row holds. *)
Lemma stock_after_sale date time app app' sid amount (i : nat) (p : Product) :
  process_sale date time app
  = (app', [showinfo "Success" (SaleProcessed sid amount)]) →
  inventory app !! i = Some p →
  Py.in_int64 (Stock_Quantity p) →
  inventory app' !! i
  = Some (set_stock
            (Py.wrap64
               (Stock_Quantity p
                - (if decide (first_index (Product_ID p) (inventory app) = Some i)
                   then sold (Product_ID p) (current_cart app) else 0))) p).
Proof.
  intros H Hp Hin.
  apply process_sale_success in H
    as (customer_id & customer_name & rest & s & _ & _ & Hloop & _ & _ & ->).
  apply (sale_loop_stock _ _ _ _ Hloop i p Hp Hin).
Qed.

(** A customer text without the separator stops the sale before anything
    is written. *)
Lemma process_sale_without_separator date time app text :
  current_cart app ≠ [] →
  Py.str_truth (customer_var app) = true →
  Py.split " - " (customer_var app) = [text] →
  process_sale date time app
  = (app, [showerror "Error" (ErrorProcessingSale Py.IndexError)]).
Proof.
  intros Hcart Htruth Hsplit. unfold process_sale.
  destruct (current_cart app); [done|]. by rewrite Htruth, Hsplit.
Qed.

(** ** Checkout: the claims *)

(** C10: after a successful [process_sale] the cart is empty, so a second
    [process_sale] right after it finds an empty cart and commits nothing:
    it leaves the state as it is and only warns. *)
Theorem successful_sale_clears_cart date time app app' sid amount :
  process_sale date time app
  = (app', [showinfo "Success" (SaleProcessed sid amount)]) →
  current_cart app' = [] ∧
  ∀ date' time',
    process_sale date' time' app'
    = (app', [showwarning "Warning" (Text "Cart is empty!")]).
Proof.
  intros H.
  apply process_sale_success in H
    as (customer_id & customer_name & rest & s & _ & _ & _ & _ & _ & ->).
  split; [done|]. intros date' time'. reflexivity.
Qed.

Lemma successful_sale_clears_cart_witness :
  current_cart (process_sale "2024-01-02" "10:00:00" rice_cart).1 = [] ∧
  ∀ date' time',
    process_sale date' time' (process_sale "2024-01-02" "10:00:00" rice_cart).1
    = ((process_sale "2024-01-02" "10:00:00" rice_cart).1,
       [showwarning "Warning" (Text "Cart is empty!")]).
Proof.
  apply (successful_sale_clears_cart "2024-01-02" "10:00:00" rice_cart
           _ "S0001" 240%float).
  vm_compute. reflexivity.
Defined.

(** C3: with P001 in the catalog at 80.00 and 50 in stock and customer C001
    at 0.00, selecting C001, putting 3 of P001 in the empty cart and
    checking out appends one ledger row (P001, quantity 3, unit price 80.00,
    total 240.00), leaves 47 of P001 in stock and C001 at 240.00. *)
Theorem checkout_scenario (app : App) date time customer_name rest
    (i : nat) (p : Product) (j : nat) (c : Customer) :
  Py.split " - " (customer_var app) = "C001" :: customer_name :: rest →
  current_cart app = [] →
  find_product "P001" (inventory app) = Some (i, p) →
  Unit_Price p = 80%float →
  Stock_Quantity p = 50 →
  find_customer "C001" (customers app) = Some (j, c) →
  Total_Purchases c = 0%float →
  let app1 := (add_to_cart (Some "P001") (Some 3) app).1 in
  let app2 := (process_sale date time app1).1 in
  sales_records app2
  = sales_records app ++
    [ {| Sale_ID := sale_id (sales_records app);
         Sale_Date := date;
         Sale_Time := time;
         Sale_Customer_ID := "C001";
         Sale_Customer_Name := customer_name;
         Sale_Product_ID := "P001";
         Sale_Product_Name := Product_Name p;
         Quantity := 3;
         Sale_Unit_Price := 80%float;
         Total_Amount := 240%float;
         Payment_Method := payment_var app |} ] ∧
  inventory app2 !! i = Some (set_stock 47 p) ∧
  customers app2 !! j = Some (set_total_purchases 240%float c).
Proof.
  intros Hsplit Hcart Hfind Hprice Hstock Hcust Htotal app1 app2.
  assert (Hp : inventory app !! i = Some p)
    by (by apply find_product_Some in Hfind as (? & _)).
  assert (Hc : customers app !! j = Some c)
    by (by apply list_find_Some in Hcust as (? & _)).
  assert (Happ1 : app1 =
    set_current_cart
      [ {| product_id := "P001"; product_name := Product_Name p;
           quantity := 3; unit_price := 80%float; total := 240%float |} ] app).
  { subst app1. unfold add_to_cart. rewrite Hfind. unfold add_item.
    rewrite Hstock, Hcart, Hprice. reflexivity. }
  subst app2. rewrite Happ1. unfold process_sale. simpl.
  destruct (Py.str_truth (customer_var app)) eqn:Et;
    [|by rewrite (split_empty _ _ Et) in Hsplit].
  simpl. rewrite Hsplit. cbv zeta. unfold loop_start. simpl.
  rewrite Hfind. simpl. split_and!.
  - done.
  - rewrite list_lookup_insert_eq by (by eapply lookup_lt_Some).
    by rewrite Hstock.
  - unfold credit_customer. rewrite Hcust.
    rewrite list_lookup_insert_eq by (by eapply lookup_lt_Some).
    by rewrite Htotal.
Qed.

Lemma checkout_scenario_witness :
  sales_records (process_sale "2024-01-02" "10:00:00" rice_cart).1
  = [ {| Sale_ID := "S0001";
         Sale_Date := "2024-01-02";
         Sale_Time := "10:00:00";
         Sale_Customer_ID := "C001";
         Sale_Customer_Name := "John";
         Sale_Product_ID := "P001";
         Sale_Product_Name := "Rice (1kg)";
         Quantity := 3;
         Sale_Unit_Price := 80%float;
         Total_Amount := 240%float;
         Payment_Method := "Cash" |} ] ∧
  Stock_Quantity <$>
    inventory (process_sale "2024-01-02" "10:00:00" rice_cart).1 !! 0%nat
  = Some 47 ∧
  Total_Purchases <$>
    customers (process_sale "2024-01-02" "10:00:00" rice_cart).1 !! 0%nat
  = Some 240%float.
Proof.
  pose proof (checkout_scenario shop_with_customer "2024-01-02" "10:00:00"
                "John" [] 0%nat
                (sample_product "P001" "Rice (1kg)" "Grains" 80 50 10 "Supplier A")
                0%nat
                {| Customer_ID := "C001"; Customer_Name := "John";
                   Phone := "555-0100"; Email := ""; Address := "";
                   Registration_Date := "2024-01-01";
                   Total_Purchases := 0%float |}) as H.
  destruct H as (Hs & Hi & Hc); try (vm_compute; reflexivity).
  fold rice_cart in Hs, Hi, Hc.
  split_and!.
  - rewrite Hs. reflexivity.
  - rewrite Hi. reflexivity.
  - rewrite Hc. reflexivity.
Defined.

(** C1: the stock of a product goes below zero at checkout.  Two cart
    lines of 30 units of P001 are each accepted by [add_item] against the
    50 in stock; [process_sale] then commits both lines and leaves -10 in
    stock, a quantity [update_stock] itself refuses to store. *)
Theorem checkout_oversells date time :
  (add_to_cart (Some "P001") (Some 30) shop_with_customer).2 = [] ∧
  (add_to_cart (Some "P001") (Some 30)
     (add_to_cart (Some "P001") (Some 30) shop_with_customer).1).2 = [] ∧
  Stock_Quantity <$> (snd <$> find_product "P001" (inventory double_rice_cart))
  = Some 50 ∧
  quantity <$> current_cart double_rice_cart = [30; 30] ∧
  (process_sale date time double_rice_cart).2
  = [showinfo "Success" (SaleProcessed "S0001" 4800%float)] ∧
  Quantity <$> sales_records (process_sale date time double_rice_cart).1
  = [30; 30] ∧
  Stock_Quantity <$>
    (snd <$> find_product "P001"
               (inventory (process_sale date time double_rice_cart).1))
  = Some (-10) ∧
  (update_stock "P001" (Some (-10)) double_rice_cart).2
  = [showerror "Error" (Text "Stock quantity cannot be negative!")].
Proof. repeat split; vm_compute; reflexivity. Qed.

(** C2: checkout does not look at the stock again.  After a first sale has
    left 5 units of P005, those 5 are put in the cart and the stock is then
    set to 2 in the stock dialog; [process_sale] reports success all the
    same, appends the row, lowers the stock to -3, credits the customer and
    empties the cart. *)
Theorem checkout_does_not_revalidate date time :
  (add_to_cart (Some "P005") (Some 5) low_milk).2 = [] ∧
  (update_stock_dialog (Some 4%nat) (Some 2)
     (add_to_cart (Some "P005") (Some 5) low_milk).1).2
  = [showinfo "Success" (Text "Stock updated successfully!")] ∧
  quantity <$> current_cart stale_milk_cart = [5] ∧
  Stock_Quantity <$> (snd <$> find_product "P005" (inventory stale_milk_cart))
  = Some 2 ∧
  (process_sale date time stale_milk_cart).2
  = [showinfo "Success" (SaleProcessed "S0002" 300%float)] ∧
  Quantity <$> sales_records (process_sale date time stale_milk_cart).1
  = [10; 5] ∧
  Stock_Quantity <$>
    (snd <$> find_product "P005"
               (inventory (process_sale date time stale_milk_cart).1))
  = Some (-3) ∧
  Total_Purchases <$> customers (process_sale date time stale_milk_cart).1
  = [900%float] ∧
  current_cart (process_sale date time stale_milk_cart).1 = [].
Proof. repeat split; vm_compute; reflexivity. Qed.

(** C4, as stated, fails: the ledger of [second_sale_cart] holds one
    earlier sale, S0001, of two line items; the specification's count of
    distinct sale ids gives S0002 for the next sale, and [process_sale]
    writes S0003. *)
Lemma sale_id_counts_rows :
  ¬ (∀ app date time,
       Forall (fun r => Sale_ID r = spec_sale_id (sales_records app))
         (drop (length (sales_records app))
            (sales_records (process_sale date time app).1))).
Proof.
  intros H. specialize (H second_sale_cart "2024-01-03" "09:00:00").
  vm_compute in H. inversion H as [|r rows Hr _]. discriminate Hr.
Qed.

(** C4, amended: every row a checkout appends carries the same sale id, the
    letter S followed by the number of rows (line items) already in the
    ledger plus 1, zero-padded to four digits; on an empty ledger it is
    S0001; a checkout that succeeds appends one such row per cart line, so
    the next id moves on by the number of lines sold. *)
Theorem sale_id_is_row_count app date time :
  (∃ rows,
     sales_records (process_sale date time app).1 = sales_records app ++ rows ∧
     Forall (fun r =>
               Sale_ID r
               = String "S"
                   (Py.format_d 4 (Z.of_nat (length (sales_records app)) + 1)))
            rows ∧
     (∀ sid amount,
        (process_sale date time app).2
        = [showinfo "Success" (SaleProcessed sid amount)] →
        sid = sale_id (sales_records app) ∧
        length rows = length (current_cart app) ∧
        sale_id (sales_records (process_sale date time app).1)
        = String "S"
            (Py.format_d 4
               (Z.of_nat (length (sales_records app))
                + Z.of_nat (length (current_cart app)) + 1)))) ∧
  sale_id [] = "S0001".
Proof.
  split; [|reflexivity].
  unfold process_sale.
  destruct (current_cart app) as [|item cart] eqn:Ec.
  { exists []. rewrite app_nil_r. by split_and!. }
  destruct (negb _).
  { exists []. rewrite app_nil_r. by split_and!. }
  destruct (Py.split _ _) as [|customer_id [|customer_name rest]].
  1,2: exists []; rewrite app_nil_r; by split_and!.
  cbv zeta.
  set (mk := sale_record _ _ _ _ _ _).
  destruct (sale_loop_sales mk (item :: cart) (loop_start app)) as [n Hn].
  destruct (sale_loop mk (item :: cart) (loop_start app)) as [s [e|]] eqn:El.
  - exists (mk <$> take n (item :: cart)). simpl in *. split_and!; [done| |done].
    apply Forall_fmap, Forall_forall. by intros.
  - apply sale_loop_sales_ok in El. exists (mk <$> (item :: cart)).
    split_and!; [done| |].
    + apply Forall_fmap, Forall_forall. by intros.
    + intros sid amount [= <-]. split_and!; [done|apply length_fmap|].
      unfold sale_id. cbn [fst sales_records clear_cart set_current_cart
                           set_customers set_sales_records].
      rewrite El. simpl. rewrite length_app. cbn [length]. rewrite length_fmap.
      do 2 f_equal. lia.
Qed.

Lemma process_sale_rows app date time :
  ∃ n rows,
    sales_records (process_sale date time app).1 = sales_records app ++ rows ∧
    Forall2 copies_line (take n (current_cart app)) rows ∧
    (∀ sid amount,
       (process_sale date time app).2
       = [showinfo "Success" (SaleProcessed sid amount)] →
       Forall2 copies_line (current_cart app) rows).
Proof.
  unfold process_sale.
  destruct (current_cart app) as [|item cart] eqn:Ec.
  { exists 0%nat, []. rewrite app_nil_r. split_and!; [done|constructor|done]. }
  destruct (negb _).
  { exists 0%nat, []. rewrite app_nil_r. split_and!; [done|constructor|done]. }
  destruct (Py.split _ _) as [|customer_id [|customer_name rest]].
  1,2: exists 0%nat, []; rewrite app_nil_r;
       split_and!; [done|constructor|done].
  cbv zeta.
  set (mk := sale_record _ _ _ _ _ _).
  assert (Hmk : ∀ l, Forall2 copies_line l (mk <$> l)).
  { intros l. apply Forall2_fmap_r, Forall_Forall2_diag, Forall_forall.
    intros x _. by repeat split. }
  destruct (sale_loop_sales mk (item :: cart) (loop_start app)) as [n Hn].
  destruct (sale_loop mk (item :: cart) (loop_start app)) as [s [e|]] eqn:El.
  - exists n, (mk <$> take n (item :: cart)). by split_and!.
  - apply sale_loop_sales_ok in El.
    exists (length (item :: cart)), (mk <$> (item :: cart)).
    rewrite firstn_all. by split_and!.
Qed.

Lemma add_to_cart_line selection qty_var app :
  current_cart (add_to_cart selection qty_var app).1 = current_cart app ∨
  ∃ item,
    current_cart (add_to_cart selection qty_var app).1
    = current_cart app ++ [item] ∧
    taken_from (inventory app) item.
Proof.
  unfold add_to_cart.
  destruct selection as [product_id|]; [|by left].
  destruct (find_product _ _) as [[i p]|] eqn:E; [|by left].
  unfold add_item. destruct qty_var as [q|]; [|by left].
  destruct (q <=? 0); [by left|]. destruct (q >? _); [by left|].
  right. eexists. split; [done|]. exists p.
  apply list_find_Some in E as (Hp & Hid & _).
  split_and!; try done. by eapply list_elem_of_lookup_2.
Qed.

Lemma line_for_taken_from inv it item :
  line_for inv it = Some item → taken_from inv item.
Proof.
  unfold line_for, find_product_by_name.
  destruct (list_find _ _) as [[i p]|] eqn:E; [|done].
  destruct (_ >=? _); [|done]. intros [= <-]. exists p.
  apply list_find_Some in E as (Hp & _ & _).
  split_and!; try done. by eapply list_elem_of_lookup_2.
Qed.

(** C6, as stated, fails: with the cart of [ghost_cart] and customer C999,
    who is in no row of the customer table, [process_sale] appends the row
    and lowers the stock. *)
Lemma unknown_customer_sale_goes_through :
  ¬ (∀ app date time customer_id rest,
       current_cart app ≠ [] →
       Py.split " - " (customer_var app) = customer_id :: rest →
       find_customer customer_id (customers app) = None →
       sales_records (process_sale date time app).1 = sales_records app ∧
       inventory (process_sale date time app).1 = inventory app ∧
       ∃ m, (process_sale date time app).2 = [showerror "Error" m]).
Proof.
  intros H.
  destruct (H ghost_cart "2024-01-02" "10:00:00" "C999" ["Ghost"])
    as (Hsales & _); [done|reflexivity|reflexivity|].
  vm_compute in Hsales. discriminate Hsales.
Qed.

(** C6, amended: when the cart is not empty, the customer text reads
    [id - name] with an id no customer has, every cart line names a product
    of the catalog and the stocks and the quantities of the cart are [int64]
    values, the checkout succeeds: it appends one row per cart line under that id and name,
    lowers the stock of the first row of each product by what the cart asks
    of that product, in the wrap-around arithmetic of [int64], leaves the
    customer table as it is and empties the cart. *)
Theorem checkout_unknown_customer app date time customer_id customer_name rest :
  current_cart app ≠ [] →
  Py.split " - " (customer_var app) = customer_id :: customer_name :: rest →
  find_customer customer_id (customers app) = None →
  Forall (fun item => product_id item ∈ Product_ID <$> inventory app)
    (current_cart app) →
  Forall (fun p => Py.in_int64 (Stock_Quantity p)) (inventory app) →
  Forall (fun item => Py.in_int64 (quantity item)) (current_cart app) →
  (∃ amount,
     (process_sale date time app).2
     = [showinfo "Success"
          (SaleProcessed (sale_id (sales_records app)) amount)]) ∧
  sales_records (process_sale date time app).1
  = sales_records app ++
    (sale_record (sale_id (sales_records app)) date time customer_id
       customer_name (payment_var app) <$> current_cart app) ∧
  (∀ i p, inventory app !! i = Some p →
     inventory (process_sale date time app).1 !! i
     = Some (set_stock
               (Py.wrap64
                  (Stock_Quantity p
                   - (if decide (first_index (Product_ID p) (inventory app) = Some i)
                      then sold (Product_ID p) (current_cart app) else 0))) p)) ∧
  customers (process_sale date time app).1 = customers app ∧
  current_cart (process_sale date time app).1 = [].
Proof.
  intros Hcart Hsplit Hcust Hids Hstock _.
  set (mk := sale_record (sale_id (sales_records app)) date time customer_id
               customer_name (payment_var app)).
  pose proof (sale_loop_resolves mk (current_cart app) (loop_start app) Hids)
    as Hnone.
  destruct (sale_loop mk (current_cart app) (loop_start app)) as [s e] eqn:El.
  simpl in Hnone. subst e.
  rewrite (process_sale_ok date time app customer_id customer_name rest s
             Hcart Hsplit El).
  split_and!.
  - by eexists.
  - apply (sale_loop_sales_ok _ _ _ _ El).
  - intros i p Hp. apply (sale_loop_stock _ _ _ _ El i p Hp).
    rewrite Forall_forall in Hstock. apply Hstock.
    by eapply list_elem_of_lookup_2.
  - simpl. unfold credit_customer. by rewrite Hcust.
  - done.
Qed.

Lemma checkout_unknown_customer_witness :
  (∃ amount,
     (process_sale "2024-01-02" "10:00:00" ghost_cart).2
     = [showinfo "Success" (SaleProcessed "S0001" amount)]) ∧
  length (sales_records (process_sale "2024-01-02" "10:00:00" ghost_cart).1)
  = 1%nat ∧
  Stock_Quantity <$>
    inventory (process_sale "2024-01-02" "10:00:00" ghost_cart).1 !! 0%nat
  = Some 47 ∧
  customers (process_sale "2024-01-02" "10:00:00" ghost_cart).1
  = customers ghost_cart.
Proof.
  destruct (checkout_unknown_customer ghost_cart "2024-01-02" "10:00:00"
              "C999" "Ghost" [])
    as (Hd & Hs & Hi & Hc & _).
  - vm_compute. discriminate.
  - vm_compute. reflexivity.
  - vm_compute. reflexivity.
  - vm_compute. repeat constructor.
  - repeat (apply Forall_cons_2; [unfold Py.in_int64; simpl; lia|]).
    apply Forall_nil_2.
  - repeat (apply Forall_cons_2; [unfold Py.in_int64; simpl; lia|]).
    apply Forall_nil_2.
  - split_and!; [exact Hd | by rewrite Hs | | exact Hc].
    rewrite (Hi 0%nat
               (sample_product "P001" "Rice (1kg)" "Grains" 80 50 10 "Supplier A")
               eq_refl).
    reflexivity.
Defined.

(** ** Shopping lists: the claim *)

Lemma list_loop_spec inv items s :
  list_loop inv items s
  = {| loop_cart := loop_cart s ++ omap (line_for inv) items;
       items_added :=
         items_added s + Z.of_nat (length (omap (line_for inv) items));
       loop_dialogs := loop_dialogs s ++ omap (warning_for inv) items |}.
Proof.
  revert s. induction items as [|it rest IH]; intros s.
  - simpl. rewrite !app_nil_r, Z.add_0_r. by destruct s.
  - cbn [list_loop omap list_omap].
    pose proof (eq_refl (line_for inv it)) as EL.
    pose proof (eq_refl (warning_for inv it)) as EW.
    unfold line_for in EL at 1. unfold warning_for in EW at 1.
    destruct (find_product_by_name (product it) inv) as [[i p]|].
    2: { rewrite <- EL, <- EW. apply IH. }
    destruct (Stock_Quantity p >=? list_quantity it);
      rewrite <- EL, <- EW, IH; cbn [loop_cart items_added loop_dialogs].
    + f_equal; [by rewrite <- app_assoc|]. cbn [length]. lia.
    + f_equal. by rewrite <- app_assoc.
Qed.




(** ** Within a run the cart follows the catalog

    No handler changes the id, the name or the price of a row of the
    inventory, and rows are never removed; so the name and price a cart line
    has captured are, at any later moment of the same run, still those of a
    row of the inventory. *)

Lemma taken_from_offers inv inv' item :
  offer <$> inv ⊆ offer <$> inv' → taken_from inv item → taken_from inv' item.
Proof.
  intros Hsub (p & Hp & Hid & Hname & Hprice & Htotal).
  assert (offer p ∈ offer <$> inv') as (p' & Ho & Hp')%list_elem_of_fmap
    by (apply Hsub; by apply list_elem_of_fmap_2).
  injection Ho as Ho1 Ho2 Ho3. exists p'.
  split_and!; [done|congruence..].
Qed.

Lemma offers_set_stock (inv : list Product) (idx : nat) p q :
  inv !! idx = Some p →
  offer <$> <[idx := set_stock q p]> inv = offer <$> inv.
Proof.
  intros H. rewrite list_fmap_insert. apply list_insert_id.
  by rewrite list_lookup_fmap, H.
Qed.

Lemma sale_loop_offers mk cart s :
  offer <$> loop_inventory (sale_loop mk cart s).1 = offer <$> loop_inventory s.
Proof.
  revert s. induction cart as [|item rest IH]; intros s; simpl; [done|].
  destruct (find_product _ _) as [[idx p]|] eqn:E; [|done].
  rewrite IH. simpl. apply offers_set_stock.
  by apply find_product_Some in E as (? & _).
Qed.

Lemma process_sale_offers date time app :
  offer <$> inventory (process_sale date time app).1 = offer <$> inventory app.
Proof.
  unfold process_sale.
  destruct (current_cart app) as [|item cart]; [done|].
  destruct (negb _); [done|].
  destruct (Py.split _ _) as [|customer_id [|customer_name rest]]; [done..|].
  cbv zeta.
  pose proof (sale_loop_offers
                (sale_record (sale_id (sales_records app)) date time customer_id
                   customer_name (payment_var app))
                (item :: cart) (loop_start app)) as H.
  by destruct (sale_loop _ _ _) as [s [e|]].
Qed.

Lemma process_sale_cart date time app :
  current_cart (process_sale date time app).1 = current_cart app ∨
  current_cart (process_sale date time app).1 = [].
Proof.
  unfold process_sale.
  destruct (current_cart app) eqn:Ec; [by left|].
  destruct (negb _); [by left|].
  destruct (Py.split _ _) as [|customer_id [|customer_name rest]];
    [by left..|].
  cbv zeta. destruct (sale_loop _ _ _) as [s [e|]]; [by left|by right].
Qed.

Lemma run_keeps_cart_in_step a app :
  cart_follows_catalog app → cart_follows_catalog (run a app).1.
Proof.
  unfold cart_follows_catalog. intros Hinv.
  destruct a as [selection qty_var| selection | | date time
                | selection stock_var | form | today form | text | text
                | product_name quantity notes | | selection | confirmed | text ];
    cbn [run].
  - assert (inventory (add_to_cart selection qty_var app).1 = inventory app) as ->.
    { unfold add_to_cart, add_item.
      destruct selection; [|done]. destruct (find_product _ _) as [[? ?]|]; [|done].
      destruct qty_var; [|done]. destruct (_ <=? _); [done|].
      by destruct (_ >? _). }
    destruct (add_to_cart_line selection qty_var app) as [->|(item & -> & Hitem)];
      [done|].
    apply Forall_app. split; [done|by apply Forall_singleton].
  - unfold remove_from_cart. destruct selection as [i|]; [|done].
    destruct (current_cart app !! i); [|done]. cbn.
    eapply Forall_impl; [by eapply Forall_delete|done].
  - by constructor.
  - eapply Forall_impl.
    + destruct (process_sale_cart date time app) as [->| ->]; [done|constructor].
    + intros item. apply taken_from_offers.
      by rewrite process_sale_offers.
  - stock_dialog_cases idx p q Hp Hq; [done|]. cbn.
    eapply Forall_impl; [done|]. intros item. apply taken_from_offers.
    by rewrite offers_set_stock.
  - unfold save_product. destruct (new_id _ _); [|done].
    destruct (price_var form), (stock_var form), (min_stock_var form); try done.
    destruct (negb _); [done|]. cbn.
    eapply Forall_impl; [done|]. intros item. apply taken_from_offers.
    rewrite fmap_app. by apply list_subseteq_app_l.
  - unfold save_customer. destruct (new_id _ _); [|done].
    by destruct (negb _).
  - done.
  - done.
  - unfold add_to_shopping_list. destruct (_ || _); [done|].
    destruct quantity; [|done]. by destruct (_ <=? _).
  - unfold add_shopping_list_to_cart. destruct (negb _); [done|]. cbv zeta.
    destruct (shopping_lists app !! _) as [[|it items]|]; [done| |done].
    cbn [fst inventory current_cart set_current_cart set_customer_var].
    rewrite list_loop_spec. cbn [loop_cart].
    apply Forall_app. split; [done|]. apply Forall_forall.
    intros item (it' & _ & Hit)%list_elem_of_omap.
    by apply (line_for_taken_from _ it').
  - unfold remove_from_shopping_list. destruct selection as [i|]; [|done].
    cbv zeta. destruct (negb _); [done|].
    destruct (shopping_lists app !! _); [|done]. by destruct (_ <? _)%nat.
  - unfold clear_shopping_list. cbv zeta. destruct (negb _); [done|].
    by destruct confirmed.
  - done.
Qed.

(** From the first start on, whatever the user does, every line of the
    cart holds the id, the name and the price of a row of the inventory, and
    quantity times that price as its total. *)
Lemma cart_lines_follow_catalog actions :
  cart_follows_catalog (run_all actions first_start).
Proof.
  unfold run_all.
  assert (∀ app, cart_follows_catalog app →
                 cart_follows_catalog (foldl (fun st a => (run a st).1) app actions))
    as H.
  { induction actions as [|a actions IH]; intros app Happ; [done|].
    simpl. by apply IH, run_keeps_cart_in_step. }
  apply H. constructor.
Qed.

(** ** New products: the claim *)

(** C8, as stated, fails: [free_sample_form] has a name, a category, a
    supplier and the non-negative price 0, and [save_product] refuses it. *)
Lemma zero_price_is_refused :
  ¬ (∀ form app, product_added form app ↔ spec_valid form).
Proof.
  intros H.
  destruct (proj2 (H free_sample_form first_start)) as [id Hid].
  - unfold spec_valid. split_and!; [done..|]. by exists 0%float.
  - vm_compute in Hid. discriminate Hid.
Qed.

(** C8, amended: [save_product] adds the product exactly when name,
    category and supplier are non-empty, price, stock and minimum stock are
    numbers, the price is not zero, and the id of the last product of the
    catalog (if there is one) ends in an integer; the product then goes to
    the end of the catalog with the entries as given, a negative price
    included.  In every other case, price 0 among them, it shows an error and
    leaves the state as it is. *)
Theorem save_product_accepts_iff form app :
  (product_added form app ↔
   is_Some (new_id "P" (Product_ID <$> inventory app)) ∧
   name_var form ≠ "" ∧ category_var form ≠ "" ∧ supplier_var form ≠ "" ∧
   is_Some (stock_var form) ∧ is_Some (min_stock_var form) ∧
   ∃ price, price_var form = Some price ∧ PrimFloat.eqb price 0%float = false) ∧
  (∀ id, (save_product form app).2 = [showinfo "Success" (ProductAdded id)] →
     ∃ price stock min_stock,
       price_var form = Some price ∧ stock_var form = Some stock ∧
       min_stock_var form = Some min_stock ∧
       inventory (save_product form app).1
       = inventory app ++
         [ {| Product_ID := id; Product_Name := name_var form;
              Category := category_var form; Unit_Price := price;
              Stock_Quantity := stock; Min_Stock_Level := min_stock;
              Supplier := supplier_var form |} ]) ∧
  (¬ product_added form app →
   (save_product form app).1 = app ∧
   ∃ m, (save_product form app).2 = [showerror "Error" m]).
Proof.
  unfold product_added, save_product.
  destruct (new_id _ _) as [new_product_id|].
  2: { split_and!.
       - split; [by intros [? ?]|]. by intros ([? ?] & _).
       - done.
       - intros _. split; [done|by eexists]. }
  destruct (price_var form) as [price|].
  2: { split_and!.
       - split; [by intros [? ?]|]. by intros (_ & _ & _ & _ & _ & _ & ? & ? & _).
       - done.
       - intros _. split; [done|by eexists]. }
  destruct (stock_var form) as [stock|].
  2: { split_and!.
       - split; [by intros [? ?]|]. by intros (_ & _ & _ & _ & [? ?] & _).
       - done.
       - intros _. split; [done|by eexists]. }
  destruct (min_stock_var form) as [min_stock|].
  2: { split_and!.
       - split; [by intros [? ?]|]. by intros (_ & _ & _ & _ & _ & [? ?] & _).
       - done.
       - intros _. split; [done|by eexists]. }
  cbn [Product_Name Category Unit_Price Supplier]. unfold Py.float_truth.
  destruct (name_var form) as [|c1 n] eqn:En; cbn [Py.str_truth andb negb].
  { split_and!.
    - split; [by intros [? ?]|]. by intros (_ & ? & _).
    - done.
    - intros _. split; [done|by eexists]. }
  destruct (category_var form) as [|c2 c] eqn:Ecat; cbn [Py.str_truth andb negb].
  { split_and!.
    - split; [by intros [? ?]|]. by intros (_ & _ & ? & _).
    - done.
    - intros _. split; [done|by eexists]. }
  destruct (PrimFloat.eqb price 0%float) eqn:Ep; cbn [andb negb].
  { split_and!.
    - split; [by intros [? ?]|].
      intros (_ & _ & _ & _ & _ & _ & price' & [= <-] & Hp). congruence.
    - done.
    - intros _. split; [done|by eexists]. }
  destruct (supplier_var form) as [|c3 sup] eqn:Es; cbn [Py.str_truth andb negb].
  { split_and!.
    - split; [by intros [? ?]|]. by intros (_ & _ & _ & ? & _).
    - done.
    - intros _. split; [done|by eexists]. }
  split_and!.
  - split; [|by eexists]. intros _. split_and!; try done. by exists price.
  - intros id [= <-]. by exists price, stock, min_stock.
  - intros H. destruct H. by eexists.
Qed.

(** A negative price passes the check of [save_product]. *)
Example negative_price_is_accepted :
  (save_product
     {| name_var := "Deposit Refund"; category_var := "Beverages";
        price_var := Some (-5)%float; stock_var := Some 5;
        min_stock_var := Some 1; supplier_var := "Supplier A" |}
     first_start).2
  = [showinfo "Success" (ProductAdded "P011")].
Proof. vm_compute. reflexivity. Qed.

(** ** Reading back a formatted number *)

Lemma digit_not_space c : Py.is_digit c = true → Py.is_space c = false.
Proof. destruct c as [[] [] [] [] [] [] [] []]; done. Qed.

Lemma digits_only_of_uint d : digits_only (NilEmpty.string_of_uint d) = true.
Proof. induction d; simpl; done. Qed.

Lemma digits_only_zeros k s : digits_only (Py.zeros k +:+ s) = digits_only s.
Proof. induction k; simpl; done. Qed.

Lemma digits_nonempty n : Py.digits n ≠ "".
Proof.
  unfold Py.digits. intros H.
  assert (N.to_uint n = Decimal.Nil) as Hnil.
  { destruct (N.to_uint n); simpl in H; congruence. }
  pose proof (DecimalN.Unsigned.of_to n) as Hn. rewrite Hnil in Hn.
  simpl in Hn. subst n. discriminate Hnil.
Qed.

Lemma lstrip_digits s : digits_only s = true → Py.lstrip s = s.
Proof.
  destruct s as [|c r]; [done|]. simpl.
  intros [Hc _]%andb_prop. by rewrite (digit_not_space _ Hc).
Qed.

Lemma rstrip_digits s : digits_only s = true → Py.rstrip s = s.
Proof.
  induction s as [|c r IH]; [done|]. simpl.
  intros [Hc Hr]%andb_prop. rewrite (IH Hr), (digit_not_space _ Hc).
  by destruct r.
Qed.

Lemma digit_run_digits b s :
  digits_only s = true → (b = true ∨ s ≠ "") → Py.digit_run b s = Some s.
Proof.
  revert b. induction s as [|c r IH]; intros b Hs Hb; simpl.
  - destruct Hb as [->|]; done.
  - apply andb_prop in Hs as [Hc Hr]. rewrite Hc, (IH true Hr); [done|by left].
Qed.

Lemma uint_of_zeros k s :
  NilEmpty.uint_of_string (Py.zeros k +:+ s)
  = Nat.iter k Decimal.D0 <$> NilEmpty.uint_of_string s.
Proof.
  induction k as [|k IH].
  - change (Py.zeros 0 +:+ s) with s. by destruct (NilEmpty.uint_of_string s).
  - change (Py.zeros (S k) +:+ s) with (String "0" (Py.zeros k +:+ s)).
    cbn [NilEmpty.uint_of_string]. rewrite IH.
    by destruct (NilEmpty.uint_of_string s).
Qed.

Lemma of_uint_zeros k d : N.of_uint (Nat.iter k Decimal.D0 d) = N.of_uint d.
Proof. induction k; simpl; done. Qed.

Lemma nat_of_digits_zfill w n : Py.nat_of_digits (Py.zfill w (Py.digits n)) = Some n.
Proof.
  unfold Py.nat_of_digits, Py.zfill.
  rewrite digit_run_digits.
  - simpl. rewrite uint_of_zeros. unfold Py.digits. rewrite NilEmpty.usu. simpl.
    by rewrite of_uint_zeros, DecimalN.Unsigned.of_to.
  - rewrite digits_only_zeros. apply digits_only_of_uint.
  - right. pose proof (digits_nonempty n).
    destruct (Py.zeros _); [done|]. by destruct (Py.digits n).
Qed.

(** [int(f"{n:0{w}d}") == n] for a natural number [n]. *)
Lemma int_of_string_format w n : 0 ≤ n → Py.int_of_string (Py.format_d w n) = Some n.
Proof.
  intros Hn. unfold Py.format_d.
  assert ((n <? 0) = false) as -> by lia.
  pose proof (nat_of_digits_zfill w (Z.to_N n)) as Hv.
  set (s := Py.zfill w (Py.digits (Z.to_N n))) in *.
  assert (Hs : digits_only s = true).
  { unfold s, Py.zfill. rewrite digits_only_zeros. apply digits_only_of_uint. }
  unfold Py.int_of_string, Py.strip.
  rewrite (lstrip_digits _ Hs), (rstrip_digits _ Hs).
  destruct s as [|c r].
  - rewrite Hv. simpl. f_equal. lia.
  - simpl in Hs. apply andb_prop in Hs as [Hc _].
    assert (Hgo : (Z.of_N <$> Py.nat_of_digits (String c r)) = Some n).
    { rewrite Hv. simpl. f_equal. lia. }
    destruct c as [[] [] [] [] [] [] [] []]; try discriminate Hc; exact Hgo.
Qed.

(** Three digits are enough below 1000. *)
Lemma format_d_width n : 0 ≤ n < 1000 → String.length (Py.format_d 3 n) = 3%nat.
Proof.
  intros Hn.
  assert (Hall : forallb (fun k => Nat.eqb (String.length (Py.format_d 3 (Z.of_nat k))) 3)
                   (seq 0 1000) = true) by (vm_compute; reflexivity).
  rewrite forallb_forall in Hall.
  specialize (Hall (Z.to_nat n)). rewrite Z2Nat.id in Hall by lia.
  apply Nat.eqb_eq, Hall, in_seq. lia.
Qed.

Lemma length_string_of_uint d :
  String.length (NilEmpty.string_of_uint d) = Decimal.nb_digits d.
Proof. induction d; simpl; congruence. Qed.

Lemma of_lu_bound d :
  (DecimalPos.Unsigned.of_lu d < 10 ^ N.of_nat (Decimal.nb_digits d))%N.
Proof.
  induction d; cbn [DecimalPos.Unsigned.of_lu Decimal.nb_digits];
    rewrite ?Nat2N.inj_succ, ?N.pow_succ_r'; lia.
Qed.

(** A number is below the power of ten of the number of its digits. *)
Lemma digits_bound n : (n < 10 ^ N.of_nat (String.length (Py.digits n)))%N.
Proof.
  unfold Py.digits. rewrite length_string_of_uint.
  rewrite <- (DecimalN.Unsigned.of_to n) at 1. unfold N.of_uint.
  rewrite DecimalPos.Unsigned.of_uint_alt, <- DecimalFacts.nb_digits_rev.
  apply of_lu_bound.
Qed.

Lemma length_zeros_append k s :
  String.length (Py.zeros k +:+ s) = (k + String.length s)%nat.
Proof.
  induction k as [|k IH]; [done|].
  change (Py.zeros (S k) +:+ s) with (String "0" (Py.zeros k +:+ s)).
  cbn [String.length]. by rewrite IH.
Qed.

(** From 1000 on the number takes more than the three digits of the pad. *)
Lemma format_d_long n : 1000 ≤ n → (3 < String.length (Py.format_d 3 n))%nat.
Proof.
  intros Hn. unfold Py.format_d, Py.zfill.
  assert ((n <? 0) = false) as -> by lia.
  rewrite length_zeros_append.
  pose proof (digits_bound (Z.to_N n)) as Hb.
  set (k := String.length (Py.digits (Z.to_N n))) in *.
  assert (3 < k)%nat; [|lia].
  destruct (decide (k ≤ 3)%nat) as [Hk|]; [|lia].
  assert (10 ^ N.of_nat k ≤ 10 ^ 3)%N by (apply N.pow_le_mono_r; lia).
  lia.
Qed.

(** ** Sequential ids: the claim *)

Lemma new_id_next letter first (ids : list string) n :
  0 ≤ n →
  last ids = Some (String first (Py.format_d 3 n)) →
  new_id letter ids = Some (String letter (Py.format_d 3 (n + 1))).
Proof.
  intros Hn Hlast. unfold new_id. rewrite Hlast.
  cbn [Py.tail]. by rewrite int_of_string_format.
Qed.

(** C9, as stated, fails: the ids do not keep one width.  After the run
    [many_products] from the first start the last id is P999, and the product
    [save_product] adds next gets P1000. *)
Lemma ids_do_not_keep_their_width :
  ¬ (∀ actions form id,
       (save_product form (run_all actions first_start)).2
       = [showinfo "Success" (ProductAdded id)] →
       spec_same_width
         (Product_ID <$> inventory (run_all actions first_start)) id).
Proof.
  intros H.
  pose proof (H many_products biscuits_form "P1000") as Hwidth.
  assert (Hlast : last (Product_ID <$>
                          inventory (run_all many_products first_start))
                  = Some "P999")
    by (vm_compute; reflexivity).
  assert (Hbox : (save_product biscuits_form
                    (run_all many_products first_start)).2
                 = [showinfo "Success" (ProductAdded "P1000")])
    by (vm_compute; reflexivity).
  pose proof (Hwidth Hbox "P999" Hlast) as Hlen. discriminate Hlen.
Qed.

(** The pad is three digits whatever the last id looks like: after a
    four-digit id read from a data file the next id is shorter. *)
Example four_digit_id_is_shortened : new_id "P" ["P0099"] = Some "P100".
Proof. vm_compute. reflexivity. Qed.

(** C9, amended: [save_product] and [save_customer] assign the id [new_id]
    computes from the id column (letter P, respectively C) and put the new
    row last.  On an empty table the id is the letter followed by 001.
    Otherwise the integer after the first character of the last id is read,
    1 is added, and the result is written after the letter with at least
    three digits, zero-padded: three digits up to 999, more from 1000 on, so
    the width is not kept.  Ids assigned one after the other go up by
    exactly 1.  With the entries of the form in order, the new row is
    appended under that id and the id is reported. *)
Theorem ids_count_up_from_last (letter : ascii) (ids : list string) :
  (ids = [] → new_id letter ids = Some (String letter "001")) ∧
  (∀ last_id n,
     last ids = Some last_id →
     Py.int_of_string (Py.tail last_id) = Some n →
     new_id letter ids = Some (String letter (Py.format_d 3 (n + 1)))) ∧
  (∀ first n,
     0 ≤ n →
     last ids = Some (String first (Py.format_d 3 n)) →
     new_id letter ids = Some (String letter (Py.format_d 3 (n + 1))) ∧
     Py.int_of_string (Py.format_d 3 (n + 1)) = Some (n + 1) ∧
     new_id letter (ids ++ [String letter (Py.format_d 3 (n + 1))])
     = Some (String letter (Py.format_d 3 (n + 2)))) ∧
  (∀ n, 0 ≤ n < 1000 → String.length (Py.format_d 3 n) = 3%nat) ∧
  (∀ n, 1000 ≤ n → (3 < String.length (Py.format_d 3 n))%nat) ∧
  (∀ form app id price stock min_stock,
     new_id "P" (Product_ID <$> inventory app) = Some id →
     name_var form ≠ "" → category_var form ≠ "" → supplier_var form ≠ "" →
     price_var form = Some price → PrimFloat.eqb price 0%float = false →
     stock_var form = Some stock → min_stock_var form = Some min_stock →
     save_product form app
     = (set_inventory
          (inventory app ++
           [ {| Product_ID := id; Product_Name := name_var form;
                Category := category_var form; Unit_Price := price;
                Stock_Quantity := stock; Min_Stock_Level := min_stock;
                Supplier := supplier_var form |} ]) app,
        [showinfo "Success" (ProductAdded id)])) ∧
  (∀ today form app id,
     new_id "C" (Customer_ID <$> customers app) = Some id →
     cust_name_var form ≠ "" →
     save_customer today form app
     = (set_customer_var (id +:+ " - " +:+ cust_name_var form)
          (set_customers
             (customers app ++
              [ {| Customer_ID := id; Customer_Name := cust_name_var form;
                   Phone := phone_var form; Email := email_var form;
                   Address := Py.strip (address_text form);
                   Registration_Date := today;
                   Total_Purchases := 0%float |} ]) app),
        [showinfo "Success" (CustomerAdded id)])) ∧
  (∀ form app id,
     (save_product form app).2 = [showinfo "Success" (ProductAdded id)] →
     new_id "P" (Product_ID <$> inventory app) = Some id ∧
     Product_ID <$> inventory (save_product form app).1
     = (Product_ID <$> inventory app) ++ [id]) ∧
  (∀ today form app id,
     (save_customer today form app).2 = [showinfo "Success" (CustomerAdded id)] →
     new_id "C" (Customer_ID <$> customers app) = Some id ∧
     Customer_ID <$> customers (save_customer today form app).1
     = (Customer_ID <$> customers app) ++ [id]).
Proof.
  split_and!.
  - by intros ->.
  - intros last_id n Hlast Hint. unfold new_id. rewrite Hlast, Hint. done.
  - intros first n Hn Hlast. split_and!.
    + by eapply new_id_next.
    + apply int_of_string_format. lia.
    + replace (n + 2) with ((n + 1) + 1) by lia.
      apply (new_id_next letter letter); [lia|apply last_snoc].
  - apply format_d_width.
  - apply format_d_long.
  - intros form app id price stock min_stock Hid Hname Hcat Hsup Hprice Hp
      Hstock Hmin.
    unfold save_product. rewrite Hid, Hprice, Hstock, Hmin.
    cbn [Product_Name Category Unit_Price Supplier]. unfold Py.float_truth.
    rewrite Hp.
    destruct (name_var form); [done|]. destruct (category_var form); [done|].
    destruct (supplier_var form); [done|]. reflexivity.
  - intros today form app id Hid Hname.
    unfold save_customer. rewrite Hid. cbn [Customer_Name].
    destruct (cust_name_var form); [done|]. reflexivity.
  - intros form app id. unfold save_product.
    destruct (new_id _ _) as [new_product_id|]; [|done].
    destruct (price_var form), (stock_var form), (min_stock_var form); try done.
    destruct (negb _); [done|]. intros [= <-].
    split; [done|]. cbn [fst inventory set_inventory]. by rewrite fmap_app.
  - intros today form app id. unfold save_customer.
    destruct (new_id _ _) as [new_customer_id|]; [|done].
    destruct (negb _); [done|]. intros [= <-].
    split; [done|]. cbn [fst customers set_customers set_customer_var].
    by rewrite fmap_app.
Qed.

Lemma ids_count_up_from_last_witness :
  new_id "P" [] = Some "P001" ∧
  (save_product biscuits_form first_start).2
  = [showinfo "Success" (ProductAdded "P011")] ∧
  Product_ID <$> drop 10 (inventory (save_product biscuits_form first_start).1)
  = ["P011"] ∧
  (save_product biscuits_form (save_product biscuits_form first_start).1).2
  = [showinfo "Success" (ProductAdded "P012")] ∧
  (save_customer "2024-01-01" john first_start).2
  = [showinfo "Success" (CustomerAdded "C001")] ∧
  (save_customer "2024-01-02" john shop_with_customer).2
  = [showinfo "Success" (CustomerAdded "C002")] ∧
  String.length (Py.format_d 3 999) = 3%nat ∧
  (3 < String.length (Py.format_d 3 1000))%nat.
Proof.
  destruct (ids_count_up_from_last "P" [])
    as (Hempty & _ & _ & Hshort & Hlong & Hproduct & Hcustomer & _).
  destruct (ids_count_up_from_last "P" (Product_ID <$> sample_inventory))
    as (_ & _ & Hnext & _).
  destruct (Hnext "P"%char 10) as (Ha & _ & Hb); [lia | reflexivity |].
  pose proof (Hproduct biscuits_form first_start "P011" 25%float 40 8 Ha)
    as H1.
  pose proof (Hproduct biscuits_form (save_product biscuits_form first_start).1
                "P012" 25%float 40 8) as H2.
  split_and!.
  - by apply Hempty.
  - rewrite H1 by (reflexivity || discriminate). reflexivity.
  - rewrite H1 by (reflexivity || discriminate). reflexivity.
  - rewrite H2 by (reflexivity || discriminate). reflexivity.
  - rewrite (Hcustomer "2024-01-01" john first_start "C001")
      by (reflexivity || discriminate).
    reflexivity.
  - rewrite (Hcustomer "2024-01-02" john shop_with_customer "C002")
      by (reflexivity || discriminate).
    reflexivity.
  - apply Hshort. lia.
  - apply Hlong. lia.
Defined.

(** ** Ids in a run *)

Lemma format_d_inj w a b :
  0 ≤ a → 0 ≤ b → Py.format_d w a = Py.format_d w b → a = b.
Proof.
  intros Ha Hb H. apply (f_equal Py.int_of_string) in H.
  rewrite !int_of_string_format in H by done. by injection H.
Qed.

Lemma numbered_ids_snoc letter n :
  numbered_ids letter (S n)
  = numbered_ids letter n ++ [String letter (Py.format_d 3 (Z.of_nat (S n)))].
Proof. unfold numbered_ids. by rewrite seq_S, fmap_app. Qed.

Lemma numbered_ids_length letter n : length (numbered_ids letter n) = n.
Proof. unfold numbered_ids. by rewrite length_fmap, length_seq. Qed.

Lemma numbered_ids_NoDup letter n : NoDup (numbered_ids letter n).
Proof.
  unfold numbered_ids. apply NoDup_fmap_2_strong; [|apply NoDup_seq].
  intros x y _ _ [= H]. apply format_d_inj in H; lia.
Qed.

Lemma new_id_numbered letter n :
  new_id letter (numbered_ids letter n)
  = Some (String letter (Py.format_d 3 (Z.of_nat (S n)))).
Proof.
  destruct n as [|m]; [reflexivity|].
  replace (Z.of_nat (S (S m))) with (Z.of_nat (S m) + 1) by lia.
  apply (new_id_next letter letter); [lia|].
  rewrite numbered_ids_snoc. apply last_snoc.
Qed.

Lemma process_sale_ids date time app :
  Product_ID <$> inventory (process_sale date time app).1
  = Product_ID <$> inventory app.
Proof.
  pose proof (f_equal (fmap (fun o : string * string * float => o.1.1))
                (process_sale_offers date time app)) as H.
  by rewrite <- !list_fmap_compose in H.
Qed.

Lemma credit_customer_ids customer_id amount cs :
  Customer_ID <$> credit_customer customer_id amount cs = Customer_ID <$> cs.
Proof.
  unfold credit_customer.
  destruct (find_customer _ _) as [[j c]|] eqn:E; [|done].
  apply list_find_Some in E as (Hc & _).
  rewrite list_fmap_insert. apply list_insert_id.
  by rewrite list_lookup_fmap, Hc.
Qed.

Lemma process_sale_customer_ids date time app :
  Customer_ID <$> customers (process_sale date time app).1
  = Customer_ID <$> customers app.
Proof.
  unfold process_sale.
  destruct (current_cart app); [done|]. destruct (negb _); [done|].
  destruct (Py.split _ _) as [|customer_id [|customer_name rest]]; [done..|].
  cbv zeta. destruct (sale_loop _ _ _) as [s [e|]]; [done|].
  apply credit_customer_ids.
Qed.

(** Each action leaves the product ids as they are or puts the id
    [new_id] computes at their end. *)
Lemma run_product_ids a app :
  Product_ID <$> inventory (run a app).1 = Product_ID <$> inventory app ∨
  ∃ id, new_id "P" (Product_ID <$> inventory app) = Some id ∧
        Product_ID <$> inventory (run a app).1
        = (Product_ID <$> inventory app) ++ [id].
Proof.
  destruct a; cbn [run];
    try (left; unfold add_to_cart, add_item, remove_from_cart, save_customer,
           add_to_shopping_list, add_shopping_list_to_cart,
           remove_from_shopping_list, clear_shopping_list;
         repeat case_match; done).
  - left. apply process_sale_ids.
  - left. stock_dialog_cases idx p q Hp Hq; [done|]. cbn.
    by apply ids_set_stock.
  - unfold save_product.
    destruct (new_id _ _) as [id|] eqn:Eid; [|by left].
    repeat case_match; try (by left).
    right. exists id. split; [done|]. cbn. by rewrite fmap_app.
Qed.

(** The same for the customer ids. *)
Lemma run_customer_ids a app :
  Customer_ID <$> customers (run a app).1 = Customer_ID <$> customers app ∨
  ∃ id, new_id "C" (Customer_ID <$> customers app) = Some id ∧
        Customer_ID <$> customers (run a app).1
        = (Customer_ID <$> customers app) ++ [id].
Proof.
  destruct a; cbn [run];
    try (left; unfold add_to_cart, add_item, remove_from_cart,
           update_stock_dialog, update_stock, save_product,
           add_to_shopping_list, add_shopping_list_to_cart,
           remove_from_shopping_list, clear_shopping_list;
         repeat case_match; done).
  - left. apply process_sale_customer_ids.
  - unfold save_customer.
    destruct (new_id _ _) as [id|] eqn:Eid; [|by left].
    repeat case_match; try (by left).
    right. exists id. split; [done|]. cbn. by rewrite fmap_app.
Qed.

Lemma numbered_ids_step letter (ids ids' : list string) :
  ids = numbered_ids letter (length ids) →
  (ids' = ids ∨ ∃ id, new_id letter ids = Some id ∧ ids' = ids ++ [id]) →
  ids' = numbered_ids letter (length ids').
Proof.
  intros Hids [->|(id & Hnew & ->)]; [done|].
  rewrite Hids, new_id_numbered in Hnew. injection Hnew as <-.
  rewrite length_app. cbn [length]. rewrite Nat.add_1_r, numbered_ids_snoc.
  by rewrite <- Hids.
Qed.

Lemma run_keeps_ids_sequential a app :
  ids_sequential app → ids_sequential (run a app).1.
Proof.
  intros [Hp Hc]. split.
  - rewrite <- (length_fmap Product_ID).
    apply (numbered_ids_step "P" (Product_ID <$> inventory app));
      [by rewrite length_fmap|].
    destruct (run_product_ids a app) as [->|?]; [by left|by right].
  - rewrite <- (length_fmap Customer_ID).
    apply (numbered_ids_step "C" (Customer_ID <$> customers app));
      [by rewrite length_fmap|].
    destruct (run_customer_ids a app) as [->|?]; [by left|by right].
Qed.

Lemma run_all_invariant (P : App -> Prop) actions app :
  (∀ a st, P st → P (run a st).1) → P app → P (run_all actions app).
Proof.
  intros Hstep. unfold run_all. revert app.
  induction actions as [|a actions IH]; intros app Happ; [done|].
  simpl. by apply IH, Hstep.
Qed.

Lemma ids_stay_sequential_aux actions :
  ids_sequential (run_all actions first_start) ∧
  NoDup (Customer_ID <$> customers (run_all actions first_start)).
Proof.
  assert (ids_sequential (run_all actions first_start)) as [Hp Hc].
  { apply run_all_invariant; [apply run_keeps_ids_sequential|].
    split; vm_compute; reflexivity. }
  split; [by split|]. rewrite Hc. apply numbered_ids_NoDup.
Qed.

(** ** Sale rows and the catalog: the claim *)

Lemma find_product_unique (inv : list Product) p :
  NoDup (Product_ID <$> inv) →
  p ∈ inv →
  ∃ i : nat, find_product (Product_ID p) inv = Some (i, p).
Proof.
  intros Hnodup [i Hp]%list_elem_of_lookup_1. exists i.
  apply list_find_Some. split_and!; [done..|].
  intros j y Hy Hlt Hid.
  assert (i = j); [|lia].
  apply (NoDup_lookup _ _ _ (Product_ID p) Hnodup);
    rewrite list_lookup_fmap; [by rewrite Hp|by rewrite Hy, <- Hid].
Qed.

(** C5: take any run of the program that starts with an empty cart on
    tables whose ids are numbered in row order, as every table the program
    has written is.  Each row a checkout appends then holds the name and the
    unit price that the catalog has, at the moment of the checkout, for the
    product of the row, and its total is the quantity times that price.
    ([process_sale] copies these values from the cart line; no handler
    changes the name or the price of a catalog row, so the copy agrees with
    the catalog.)  A checkout that goes through appends one such row per
    cart line. *)
Theorem sale_rows_snapshot_catalog app0 actions date time :
  ids_sequential app0 →
  current_cart app0 = [] →
  let app := run_all actions app0 in
  ∃ rows,
    sales_records (process_sale date time app).1 = sales_records app ++ rows ∧
    Forall (fun r =>
              ∃ (i : nat) p,
                find_product (Sale_Product_ID r) (inventory app) = Some (i, p) ∧
                Sale_Product_Name r = Product_Name p ∧
                Sale_Unit_Price r = Unit_Price p ∧
                Total_Amount r
                = PrimFloat.mul (Py.float_of_Z (Quantity r)) (Unit_Price p))
           rows ∧
    (∀ sid amount,
       (process_sale date time app).2
       = [showinfo "Success" (SaleProcessed sid amount)] →
       Quantity <$> rows = quantity <$> current_cart app).
Proof.
  intros Hids Hcart app.
  assert (Hseq : ids_sequential app)
    by (by apply run_all_invariant; [apply run_keeps_ids_sequential|]).
  assert (Hfollow : cart_follows_catalog app).
  { apply run_all_invariant; [apply run_keeps_cart_in_step|].
    unfold cart_follows_catalog. rewrite Hcart. constructor. }
  assert (Hnodup : NoDup (Product_ID <$> inventory app)).
  { destruct Hseq as [-> _]. apply numbered_ids_NoDup. }
  destruct (process_sale_rows app date time) as (n & rows & Hrows & Hcopy & Hall).
  exists rows. split_and!; [done| |].
  - apply Forall_forall. intros r Hr.
    apply list_elem_of_lookup_1 in Hr as [k Hr].
    destruct (Forall2_lookup_r _ _ _ _ _ Hcopy Hr) as (item & Hitem & Hline).
    apply lookup_take_Some in Hitem as [Hitem _].
    unfold cart_follows_catalog in Hfollow. rewrite Forall_lookup in Hfollow.
    destruct (Hfollow k item Hitem) as (p & Hp & Hid & Hname & Hprice & Htotal).
    destruct (find_product_unique _ p Hnodup Hp) as [i Hfind].
    destruct Hline as (Lid & Lname & Lq & Lprice & Ltotal).
    exists i, p. split_and!; congruence.
  - intros sid amount Hok. specialize (Hall sid amount Hok).
    clear -Hall. induction Hall as [|item r cart rows (_ & _ & Hq & _) _ IH];
      [done|]. cbn. by rewrite Hq, IH.
Qed.

Lemma sale_rows_snapshot_catalog_witness :
  ∃ rows,
    sales_records
      (process_sale "2024-01-02" "10:00:00"
         (run_all [SaveCustomer "2024-01-01" john;
                   AddToCart (Some "P001") (Some 3)] first_start)).1
    = rows ∧
    Forall (fun r =>
              ∃ (i : nat) p,
                find_product (Sale_Product_ID r) sample_inventory = Some (i, p) ∧
                Sale_Product_Name r = Product_Name p ∧
                Sale_Unit_Price r = Unit_Price p ∧
                Total_Amount r
                = PrimFloat.mul (Py.float_of_Z (Quantity r)) (Unit_Price p))
           rows ∧
    Quantity <$> rows = [3].
Proof.
  destruct (sale_rows_snapshot_catalog first_start
              [SaveCustomer "2024-01-01" john; AddToCart (Some "P001") (Some 3)]
              "2024-01-02" "10:00:00")
    as (rows & Hrows & Hsnap & Hq).
  - split; vm_compute; reflexivity.
  - reflexivity.
  - exists rows. split_and!.
    + exact Hrows.
    + exact Hsnap.
    + apply (Hq "S0001" 240%float). vm_compute. reflexivity.
Defined.

(** * Further properties *)

(** ** Amounts of a sale *)

(** X1: the amount a successful sale reports is the total the cart display
    showed before it, and it is the sum of the [Total_Amount] of the rows the
    sale appended, added in row order. *)
Theorem reported_amount_is_displayed_total date time app app' sid amount :
  process_sale date time app
  = (app', [showinfo "Success" (SaleProcessed sid amount)]) →
  amount = cart_display_total (current_cart app) ∧
  amount
  = foldl (fun acc r => PrimFloat.add acc (Total_Amount r)) (Py.float_of_Z 0)
          (drop (length (sales_records app)) (sales_records app')).
Proof.
  intros H.
  apply process_sale_success in H
    as (customer_id & customer_name & rest & s & _ & _ & Hloop & _ & -> & ->).
  rewrite (sale_loop_total _ _ _ _ Hloop). split; [done|].
  cbn [sale_done clear_cart set_current_cart set_customers set_sales_records
       sales_records].
  rewrite (sale_loop_sales_ok _ _ _ _ Hloop). cbn [loop_start loop_sales].
  rewrite drop_app_length, foldl_fmap. done.
Qed.

Lemma reported_amount_is_displayed_total_witness :
  240%float = cart_display_total (current_cart rice_cart).
Proof.
  apply (reported_amount_is_displayed_total "2024-01-02" "10:00:00" rice_cart
           (process_sale "2024-01-02" "10:00:00" rice_cart).1 "S0001" 240%float).
  vm_compute. reflexivity.
Defined.

(** X2: a successful sale adds the reported amount to [Total_Purchases] of
    the first customer whose id is the part of the customer text before the
    first separator, and touches no other customer and no other column. *)
Theorem sale_credits_first_customer date time app app' sid amount
    customer_id rest (j : nat) (c : Customer) :
  process_sale date time app
  = (app', [showinfo "Success" (SaleProcessed sid amount)]) →
  Py.split " - " (customer_var app) = customer_id :: rest →
  find_customer customer_id (customers app) = Some (j, c) →
  customers app'
  = <[j := set_total_purchases (PrimFloat.add (Total_Purchases c) amount) c]>
      (customers app) ∧
  customers app !! j = Some c ∧
  (∀ k, k ≠ j → customers app' !! k = customers app !! k).
Proof.
  intros H Hsplit Hfind.
  apply process_sale_success in H
    as (cid & customer_name & rest' & s & _ & Hsplit' & _ & _ & -> & ->).
  rewrite Hsplit in Hsplit'. injection Hsplit' as <- _.
  cbn [sale_done clear_cart set_current_cart set_customers customers].
  unfold credit_customer. rewrite Hfind.
  split_and!; [done| |].
  - by apply list_find_Some in Hfind as (? & _).
  - intros k Hk. by rewrite list_lookup_insert_ne.
Qed.

Lemma sale_credits_first_customer_witness :
  Total_Purchases <$> customers (process_sale "2024-01-02" "10:00:00" rice_cart).1
  = [240%float].
Proof.
  destruct (sale_credits_first_customer "2024-01-02" "10:00:00" rice_cart
              (process_sale "2024-01-02" "10:00:00" rice_cart).1
              "S0001" 240%float "C001" ["John"] 0%nat
              {| Customer_ID := "C001"; Customer_Name := "John";
                 Phone := "555-0100"; Email := ""; Address := "";
                 Registration_Date := "2024-01-01";
                 Total_Purchases := 0%float |})
    as (Hc & _); [vm_compute; reflexivity..|].
  rewrite Hc. vm_compute. reflexivity.
Defined.

(** ** Stock after a sale *)

Lemma process_sale_length date time app :
  length (inventory (process_sale date time app).1) = length (inventory app).
Proof.
  rewrite <- (length_fmap offer), process_sale_offers. apply length_fmap.
Qed.

Lemma sold_nonnegative id cart :
  Forall (fun item => 0 ≤ quantity item) cart → 0 ≤ sold id cart.
Proof.
  induction 1 as [|item cart Hq _ IH]; simpl; [done|].
  case_decide; lia.
Qed.

(** X3: take a sale that goes through, on an [int64] stock column without
    negative stock and a cart without negative quantities that asks less
    than 2^63 units of any one product, so that no subtraction wraps around.
    Then no stock is negative after the sale exactly when, for every
    product, the cart lines of that product together ask no more than its
    first row holds. *)
Theorem stock_stays_nonnegative_iff date time app app' sid amount :
  process_sale date time app
  = (app', [showinfo "Success" (SaleProcessed sid amount)]) →
  stock_nonnegative (inventory app) →
  Forall (fun p => Py.in_int64 (Stock_Quantity p)) (inventory app) →
  Forall (fun item => 0 ≤ quantity item) (current_cart app) →
  (∀ id, sold id (current_cart app) < 2 ^ 63) →
  stock_nonnegative (inventory app') ↔
  ∀ (i : nat) (p : Product),
    inventory app !! i = Some p →
    first_index (Product_ID p) (inventory app) = Some i →
    sold (Product_ID p) (current_cart app) ≤ Stock_Quantity p.
Proof.
  intros H Hnonneg Hint Hcart Hsold.
  unfold stock_nonnegative in *.
  rewrite Forall_lookup in Hnonneg. rewrite Forall_lookup in Hint.
  assert (Hafter : ∀ (i : nat) p, inventory app !! i = Some p →
            inventory app' !! i
            = Some (set_stock
                      (Stock_Quantity p
                       - (if decide (first_index (Product_ID p) (inventory app)
                                     = Some i)
                          then sold (Product_ID p) (current_cart app) else 0))
                      p)).
  { intros i p Hp.
    rewrite (stock_after_sale date time app app' sid amount i p H Hp (Hint i p Hp)).
    rewrite wrap64_in_int64; [done|].
    pose proof (Hint i p Hp) as Hi. pose proof (Hnonneg i p Hp) as Hn.
    pose proof (sold_nonnegative (Product_ID p) _ Hcart) as H0.
    pose proof (Hsold (Product_ID p)) as H1. cbn beta in Hn.
    unfold Py.in_int64 in *. case_decide; lia. }
  pose proof (process_sale_length date time app) as Hlen. rewrite H in Hlen.
  rewrite Forall_lookup. split.
  - intros Hall i p Hp Hfirst.
    specialize (Hall i _ (Hafter i p Hp)). cbn in Hall.
    rewrite decide_True in Hall by done. lia.
  - intros Hask i p' Hp'.
    destruct (inventory app !! i) as [p|] eqn:Hp.
    + rewrite (Hafter i p Hp) in Hp'. injection Hp' as <-. cbn.
      specialize (Hnonneg i p Hp). specialize (Hask i p Hp).
      case_decide; [specialize (Hask ltac:(done))|]; lia.
    + apply lookup_ge_None in Hp. apply lookup_lt_Some in Hp'. simpl in Hlen. lia.
Qed.

Lemma stock_stays_nonnegative_iff_witness :
  stock_nonnegative (inventory (process_sale "2024-01-02" "10:00:00" rice_cart).1) ↔
  ∀ (i : nat) (p : Product),
    inventory rice_cart !! i = Some p →
    first_index (Product_ID p) (inventory rice_cart) = Some i →
    sold (Product_ID p) (current_cart rice_cart) ≤ Stock_Quantity p.
Proof.
  apply (stock_stays_nonnegative_iff "2024-01-02" "10:00:00" rice_cart
           _ "S0001" 240%float).
  - vm_compute. reflexivity.
  - vm_compute. repeat constructor; discriminate.
  - repeat (apply Forall_cons_2; [unfold Py.in_int64; simpl; lia|]).
    apply Forall_nil_2.
  - repeat (apply Forall_cons_2; [simpl; lia|]). apply Forall_nil_2.
  - intros id. set (cart := current_cart rice_cart). vm_compute in cart.
    subst cart. unfold sold. simpl. case_decide; lia.
Defined.

(** ** A sale in a run *)

Lemma cart_products_known app :
  cart_follows_catalog app →
  Forall (fun item => product_id item ∈ Product_ID <$> inventory app)
         (current_cart app).
Proof.
  intros H. eapply Forall_impl; [exact H|]. intros item (p & Hp & Hid & _).
  rewrite Hid. by apply list_elem_of_fmap_2.
Qed.

Lemma process_sale_all_or_nothing date time app :
  cart_follows_catalog app →
  (process_sale date time app).1 = app ∨
  ∃ sid amount,
    (process_sale date time app).2
    = [showinfo "Success" (SaleProcessed sid amount)].
Proof.
  intros Hinv. apply cart_products_known in Hinv.
  unfold process_sale.
  destruct (current_cart app) as [|item cart] eqn:Ec; [by left|].
  destruct (negb _); [by left|].
  destruct (Py.split _ _) as [|customer_id [|customer_name rest]]; [by left..|].
  cbv zeta.
  pose proof (sale_loop_resolves
                (sale_record (sale_id (sales_records app)) date time customer_id
                   customer_name (payment_var app))
                (item :: cart) (loop_start app) Hinv) as Hnone.
  destruct (sale_loop _ _ _) as [s e]. simpl in Hnone. subst e.
  right. by eexists _, _.
Qed.

(** X4: at any point of a run from the first start, [process_sale] either
    goes through (every cart line gets its row and the success box is shown)
    or leaves the state as it is: it never stops half way through the
    cart. *)
Theorem sale_in_a_run_is_all_or_nothing actions date time :
  (process_sale date time (run_all actions first_start)).1
  = run_all actions first_start ∨
  ∃ sid amount rows,
    (process_sale date time (run_all actions first_start)).2
    = [showinfo "Success" (SaleProcessed sid amount)] ∧
    sales_records (process_sale date time (run_all actions first_start)).1
    = sales_records (run_all actions first_start) ++ rows ∧
    Forall2 copies_line (current_cart (run_all actions first_start)) rows.
Proof.
  set (app := run_all actions first_start).
  destruct (process_sale_all_or_nothing date time app
              (cart_lines_follow_catalog actions)) as [Hsame|(sid & amount & Hok)];
    [by left|right].
  destruct (process_sale_rows app date time) as (n & rows & Hrows & _ & Hall).
  exists sid, amount, rows. split_and!; [done..|]. by eapply Hall.
Qed.

(** ** Ids in a run: what the user sees *)

(** X5: from the first start on, whatever the user does, the product ids
    are P001, P002, ... and the customer ids C001, C002, ..., in row order
    without a gap; so no two products and no two customers share an id, and
    the next product or customer gets the number after the last. *)
Theorem ids_stay_sequential actions :
  ids_sequential (run_all actions first_start) ∧
  NoDup (Product_ID <$> inventory (run_all actions first_start)) ∧
  NoDup (Customer_ID <$> customers (run_all actions first_start)) ∧
  new_id "P" (Product_ID <$> inventory (run_all actions first_start))
  = Some (String "P"
            (Py.format_d 3
               (Z.of_nat (S (length (inventory (run_all actions first_start))))))) ∧
  new_id "C" (Customer_ID <$> customers (run_all actions first_start))
  = Some (String "C"
            (Py.format_d 3
               (Z.of_nat (S (length (customers (run_all actions first_start))))))).
Proof.
  assert (ids_sequential (run_all actions first_start)) as [Hp Hc].
  { apply run_all_invariant; [apply run_keeps_ids_sequential|].
    split; vm_compute; reflexivity. }
  split_and!.
  - by split.
  - rewrite Hp. apply numbered_ids_NoDup.
  - rewrite Hc. apply numbered_ids_NoDup.
  - rewrite Hp at 1. apply new_id_numbered.
  - rewrite Hc at 1. apply new_id_numbered.
Qed.

(** ** Sale ids in a run *)

(** What a sale appends: rows for a prefix of the cart, all under the id
    [sale_id] gives and the date and time of the sale; the whole cart when
    the sale succeeds. *)
Lemma process_sale_new_rows app date time :
  ∃ n customer_id customer_name,
    sales_records (process_sale date time app).1
    = sales_records app ++
      (sale_record (sale_id (sales_records app)) date time customer_id
         customer_name (payment_var app) <$> take n (current_cart app)) ∧
    (∀ sid amount,
       (process_sale date time app).2
       = [showinfo "Success" (SaleProcessed sid amount)] →
       current_cart app ≠ [] ∧ take n (current_cart app) = current_cart app).
Proof.
  unfold process_sale.
  destruct (current_cart app) as [|item cart] eqn:Ec.
  { exists 0%nat, EmptyString, EmptyString. by rewrite app_nil_r. }
  destruct (negb _).
  { exists 0%nat, EmptyString, EmptyString. by rewrite app_nil_r. }
  destruct (Py.split _ _) as [|customer_id [|customer_name rest]].
  1,2: exists 0%nat, EmptyString, EmptyString; by rewrite app_nil_r.
  cbv zeta. set (mk := sale_record _ _ _ _ _ _).
  destruct (sale_loop_sales mk (item :: cart) (loop_start app)) as [n Hn].
  destruct (sale_loop mk (item :: cart) (loop_start app)) as [s [e|]] eqn:El.
  - exists n, customer_id, customer_name. by split.
  - apply sale_loop_sales_ok in El.
    exists (length (item :: cart)), customer_id, customer_name.
    rewrite firstn_all. by split.
Qed.

Lemma sale_id_numbered sales :
  sale_id sales = String "S" (Py.format_d 4 (Z.of_nat (S (length sales)))).
Proof. unfold sale_id. do 2 f_equal. lia. Qed.

Lemma sale_id_fresh sales :
  ledger_numbered sales → sale_id sales ∉ Sale_ID <$> sales.
Proof.
  intros Hnum (r & Hid & Hr)%list_elem_of_fmap.
  unfold ledger_numbered in Hnum. rewrite Forall_forall in Hnum.
  destruct (Hnum r Hr) as (k & Hk & Hrid).
  rewrite sale_id_numbered, Hrid in Hid. injection Hid as Hid.
  apply format_d_inj in Hid; lia.
Qed.

Lemma ledger_numbered_app sales rows :
  ledger_numbered sales →
  Forall (fun r => Sale_ID r = sale_id sales) rows →
  ledger_numbered (sales ++ rows).
Proof.
  unfold ledger_numbered. intros Hold Hnew. apply Forall_app. split.
  - eapply Forall_impl; [exact Hold|]. intros r (k & Hk & Hid).
    exists k. rewrite length_app. split; [lia|done].
  - rewrite Forall_forall. intros r Hr.
    exists (S (length sales)). rewrite length_app.
    assert (length rows ≠ 0)%nat by (destruct rows; [by inversion Hr|done]).
    split; [lia|]. rewrite Forall_forall in Hnew.
    by rewrite (Hnew r Hr), sale_id_numbered.
Qed.

Lemma run_keeps_ledger_numbered a app :
  ledger_numbered (sales_records app) →
  ledger_numbered (sales_records (run a app).1).
Proof.
  intros Hnum.
  destruct a; cbn [run];
    try (unfold add_to_cart, add_item, remove_from_cart, update_stock_dialog,
           update_stock,
           save_product, save_customer, add_to_shopping_list,
           add_shopping_list_to_cart, remove_from_shopping_list,
           clear_shopping_list;
         repeat case_match; done).
  destruct (process_sale_new_rows app date time)
    as (n & customer_id & customer_name & -> & _).
  apply ledger_numbered_app; [done|].
  apply Forall_fmap, Forall_forall. by intros.
Qed.

Lemma ledger_numbered_in_a_run actions :
  ledger_numbered (sales_records (run_all actions first_start)).
Proof.
  apply (run_all_invariant (fun app => ledger_numbered (sales_records app)));
    [apply run_keeps_ledger_numbered|constructor].
Qed.

(** X6: from the first start on, whatever the user does, the rows a sale
    appends all carry one sale id, and that id is on no row already in the
    ledger: two checkouts never share a sale id. *)
Theorem sale_ids_are_fresh actions date time :
  ∃ rows,
    sales_records (process_sale date time (run_all actions first_start)).1
    = sales_records (run_all actions first_start) ++ rows ∧
    Forall (fun r =>
              Sale_ID r = sale_id (sales_records (run_all actions first_start)) ∧
              Sale_ID r ∉ Sale_ID <$> sales_records (run_all actions first_start))
           rows.
Proof.
  set (app := run_all actions first_start).
  destruct (process_sale_new_rows app date time)
    as (n & customer_id & customer_name & Hrows & _).
  eexists. split; [exact Hrows|].
  apply Forall_fmap, Forall_forall. intros item _. split; [done|].
  apply sale_id_fresh, ledger_numbered_in_a_run.
Qed.

(** ** The daily report *)

Lemma filter_all {A} (P : A → Prop) `{!∀ x, Decision (P x)} (l : list A) :
  Forall P l → filter P l = l.
Proof.
  induction 1 as [|x l Hx Hl IH]; [done|].
  rewrite filter_cons, decide_True by done. by rewrite IH.
Qed.

Lemma remove_dups_fresh_run {A} `{!EqDecision A} (l : list A) x n :
  x ∉ l →
  length (remove_dups (l ++ replicate (S n) x)) = S (length (remove_dups l)).
Proof.
  intros Hx. induction l as [|y l IH].
  - clear Hx. induction n as [|n IHn]; [done|].
    cbn [app replicate remove_dups] in *.
    destruct (decide_rel elem_of x (x :: replicate n x)) as [_|Hin];
      [exact IHn|]. destruct Hin. apply list_elem_of_here.
  - apply not_elem_of_cons in Hx as [Hxy Hx]. specialize (IH Hx).
    cbn [app remove_dups].
    case_decide as Hin; case_decide as Hin'; cbn [length]; try by rewrite IH.
    + apply elem_of_app in Hin as [?|[-> _]%elem_of_replicate]; done.
    + destruct Hin. apply elem_of_app. by left.
Qed.

Lemma transactions_counted today sales :
  default 0%nat (total_transactions today sales)
  = length (remove_dups (Sale_ID <$> today_sales today sales)).
Proof. unfold total_transactions. by destruct (today_sales today sales). Qed.

(** X7: from the first start on, whatever the user does, a successful
    sale raises "Total Transactions" of the daily report of its date by
    exactly 1, however many lines the cart has. *)
Theorem sale_counts_as_one_transaction actions date time sid amount :
  (process_sale date time (run_all actions first_start)).2
  = [showinfo "Success" (SaleProcessed sid amount)] →
  total_transactions date
    (sales_records (process_sale date time (run_all actions first_start)).1)
  = Some (S (default 0%nat
               (total_transactions date
                  (sales_records (run_all actions first_start))))).
Proof.
  set (app := run_all actions first_start). intros Hok.
  destruct (process_sale_new_rows app date time)
    as (n & customer_id & customer_name & Hrows & Hall).
  destruct (Hall _ _ Hok) as [Hne Htake]. rewrite Htake in Hrows.
  rewrite Hrows, transactions_counted.
  set (mk := sale_record _ _ _ _ _ _) in *.
  assert (Hfilter : today_sales date (sales_records app ++ (mk <$> current_cart app))
                    = today_sales date (sales_records app) ++ (mk <$> current_cart app)).
  { unfold today_sales. rewrite filter_app. f_equal.
    apply filter_all, Forall_fmap, Forall_forall. by intros. }
  assert (Hids : Sale_ID <$> (mk <$> current_cart app)
                 = replicate (length (current_cart app)) (sale_id (sales_records app))).
  { clear. induction (current_cart app) as [|item cart IH]; [done|].
    cbn. by rewrite IH. }
  unfold total_transactions. rewrite Hfilter.
  destruct (current_cart app) as [|item cart] eqn:Ec; [done|].
  assert (∀ l : list SaleRecord, l ++ (mk <$> item :: cart) ≠ []) as Hnil
    by (intros [|]; done).
  destruct (today_sales date (sales_records app) ++ (mk <$> item :: cart))
    as [|r rs] eqn:E; [by apply Hnil in E|].
  rewrite <- E, fmap_app, Hids. cbn [length].
  rewrite remove_dups_fresh_run; [done|].
  intros (r' & Hid & Hr')%list_elem_of_fmap.
  apply list_elem_of_filter in Hr' as [_ Hr'].
  apply (sale_id_fresh (sales_records app)); [apply ledger_numbered_in_a_run|].
  apply list_elem_of_fmap. by exists r'.
Qed.

Lemma sale_counts_as_one_transaction_witness :
  total_transactions "2024-01-02"
    (sales_records
       (process_sale "2024-01-02" "10:00:00"
          (run_all [SaveCustomer "2024-01-01" john;
                    AddToCart (Some "P001") (Some 1);
                    AddToCart (Some "P002") (Some 1)] first_start)).1)
  = Some 1%nat.
Proof.
  apply (sale_counts_as_one_transaction
           [SaveCustomer "2024-01-01" john;
            AddToCart (Some "P001") (Some 1);
            AddToCart (Some "P002") (Some 1)]
           "2024-01-02" "10:00:00" "S0001" 125%float).
  vm_compute. reflexivity.
Defined.

(** ** Quantities in a run *)

Lemma process_sale_shopping_lists date time app :
  shopping_lists (process_sale date time app).1 = shopping_lists app.
Proof. unfold process_sale. by repeat case_match. Qed.

Lemma line_for_quantity inv it item :
  line_for inv it = Some item → quantity item = list_quantity it.
Proof. unfold line_for. repeat case_match; try done. by intros [= <-]. Qed.

Lemma run_keeps_quantities_positive a app :
  quantities_positive app → quantities_positive (run a app).1.
Proof.
  intros (Hcart & Hsales & Hlists).
  destruct a as [selection qty_var| selection | | date time
                | selection stock_var | form | today form | text | text
                | product_name quantity notes | | selection | confirmed | text ];
    cbn [run].
  - unfold add_to_cart, add_item. repeat case_match; try done.
    split_and!; [|done..]. cbn. apply Forall_app. split; [done|].
    apply Forall_singleton. cbn. lia.
  - unfold remove_from_cart. repeat case_match; try done.
    split_and!; [|done..]. cbn. by apply Forall_delete.
  - by split_and!.
  - split_and!.
    + destruct (process_sale_cart date time app) as [-> | ->]; [done|constructor].
    + destruct (process_sale_new_rows app date time)
        as (n & customer_id & customer_name & -> & _).
      apply Forall_app. split; [done|].
      apply Forall_fmap. by apply Forall_take.
    + by rewrite process_sale_shopping_lists.
  - unfold update_stock_dialog, update_stock. by repeat case_match.
  - unfold save_product. by repeat case_match.
  - unfold save_customer. by repeat case_match.
  - done.
  - done.
  - unfold add_to_shopping_list. destruct (_ || _); [done|].
    destruct quantity as [q|]; [|done].
    destruct (q <=? 0) eqn:Eq; [done|]. cbv zeta.
    split_and!; [done..|]. cbn. apply map_Forall_insert_2; [|done].
    apply Forall_app. split; [|apply Forall_singleton; cbn; lia].
    destruct (shopping_lists app !! _) as [items|] eqn:El; [|constructor].
    apply (map_Forall_lookup_1 _ _ _ _ Hlists El).
  - unfold add_shopping_list_to_cart. destruct (negb _); [done|]. cbv zeta.
    destruct (shopping_lists app !! _) as [[|it items]|] eqn:El; [done| |done].
    split_and!; [|done..].
    cbn [fst current_cart set_current_cart set_customer_var].
    rewrite list_loop_spec. cbn [loop_cart].
    apply Forall_app. split; [done|].
    pose proof (map_Forall_lookup_1 _ _ _ _ Hlists El) as Hitems.
    rewrite Forall_forall in Hitems. apply Forall_forall.
    intros item (it' & Hin & Hline)%list_elem_of_omap.
    rewrite (line_for_quantity _ _ _ Hline). by apply Hitems.
  - unfold remove_from_shopping_list. destruct selection as [i|]; [|done].
    cbv zeta. destruct (negb _); [done|].
    destruct (shopping_lists app !! _) as [items|] eqn:El; [|done].
    destruct (_ <? _)%nat; [|done].
    split_and!; [done..|]. cbn. apply map_Forall_insert_2; [|done].
    apply Forall_delete, (map_Forall_lookup_1 _ _ _ _ Hlists El).
  - unfold clear_shopping_list. cbv zeta. destruct (negb _); [done|].
    destruct confirmed; [|done].
    split_and!; [done..|]. cbn. by apply map_Forall_insert_2.
  - done.
Qed.

(** X8: from the first start on, whatever the user does, every cart line,
    every ledger row and every shopping-list item has a quantity of at
    least 1. *)
Theorem quantities_stay_positive actions :
  quantities_positive (run_all actions first_start).
Proof.
  apply run_all_invariant; [apply run_keeps_quantities_positive|].
  split_and!; [constructor..|]. apply map_Forall_empty.
Qed.

(** ** From a combo box entry back to the customer *)

Lemma append_cons c s t : String c s +:+ t = String c (s +:+ t).
Proof. reflexivity. Qed.

Lemma append_nil_r s : s +:+ "" = s.
Proof. induction s as [|c s IH]; [done|]. by rewrite append_cons, IH. Qed.

Lemma append_snoc cur c a : (cur +:+ String c "") +:+ a = cur +:+ String c a.
Proof. induction cur as [|x cur IH]; [done|]. by rewrite !append_cons, IH. Qed.

Lemma split_go_no_space a b cur :
  no_space a = true →
  Py.split_go " - " 0 cur (a +:+ " - " +:+ b)
  = (cur +:+ a) :: Py.split_go " - " 0 "" b.
Proof.
  revert cur. induction a as [|c a IH]; intros cur Ha.
  - rewrite append_nil_r.
    change ("" +:+ " - " +:+ b) with (String " " (String "-" (String " " b))).
    cbn [Py.split_go].
    assert (String.prefix " - " (String " " (String "-" (String " " b))) = true)
      as -> by (by destruct b).
    reflexivity.
  - simpl in Ha. apply andb_prop in Ha as [Hc Ha].
    rewrite append_cons. cbn [Py.split_go String.prefix].
    destruct (ascii_dec " " c) as [<-|_]; [done|].
    rewrite (IH _ Ha). by rewrite append_snoc.
Qed.

Lemma split_no_space a b :
  no_space a = true →
  Py.split " - " (a +:+ " - " +:+ b) = a :: Py.split " - " b.
Proof. intros Ha. unfold Py.split. by rewrite split_go_no_space. Qed.

Lemma split_go_nonempty sep skip cur s : Py.split_go sep skip cur s ≠ [].
Proof.
  revert skip cur. induction s as [|c s IH]; intros skip cur; [done|].
  cbn [Py.split_go]. destruct skip; [|apply IH].
  destruct (String.prefix _ _); [done|apply IH].
Qed.

Lemma digits_no_space s : digits_only s = true → no_space s = true.
Proof.
  induction s as [|c s IH]; [done|]. simpl.
  intros [Hc Hs]%andb_prop. rewrite (IH Hs), andb_true_r.
  destruct c as [[] [] [] [] [] [] [] []]; done.
Qed.

Lemma format_d_no_space w z : no_space (Py.format_d w z) = true.
Proof.
  unfold Py.format_d, Py.zfill.
  destruct (z <? 0); [cbn [no_space]; rewrite andb_true_l|];
    apply digits_no_space; rewrite digits_only_zeros; apply digits_only_of_uint.
Qed.

Lemma find_customer_unique (cs : list Customer) (i : nat) row :
  NoDup (Customer_ID <$> cs) →
  cs !! i = Some row →
  find_customer (Customer_ID row) cs = Some (i, row).
Proof.
  intros Hnodup Hrow. apply list_find_Some. split_and!; [done..|].
  intros j y Hy Hlt Hid.
  assert (i = j); [|lia].
  apply (NoDup_lookup _ _ _ (Customer_ID row) Hnodup);
    rewrite list_lookup_fmap; [by rewrite Hrow|by rewrite Hy, <- Hid].
Qed.

(** X9: from the first start on, whatever the user does, every entry
    [refresh_customer_list] offers in the customer boxes leads back to its
    customer: the text before the first separator is the id of a row of the
    customer table, looking that id up gives that very row, and the pieces
    after it are the pieces of the customer's name (so the name
    [process_sale] records is the name up to its first separator). *)
Theorem combo_entry_leads_to_customer actions entry :
  entry ∈ customer_names (customers (run_all actions first_start)) →
  ∃ (i : nat) row piece rest,
    customers (run_all actions first_start) !! i = Some row ∧
    Py.split " - " entry = Customer_ID row :: piece :: rest ∧
    Py.split " - " (Customer_Name row) = piece :: rest ∧
    find_customer (Customer_ID row) (customers (run_all actions first_start))
    = Some (i, row).
Proof.
  set (app := run_all actions first_start).
  intros (row & -> & Hrow)%list_elem_of_fmap.
  apply list_elem_of_lookup in Hrow as [i Hi].
  destruct (ids_stay_sequential_aux actions) as ([_ Hc] & Hnodup).
  fold app in Hc, Hnodup.
  assert (Hid : no_space (Customer_ID row) = true).
  { assert (Customer_ID row ∈ numbered_ids "C" (length (customers app))) as Hin.
    { rewrite <- Hc. apply list_elem_of_fmap_2. by eapply list_elem_of_lookup_2. }
    apply list_elem_of_fmap in Hin as (k & -> & _).
    cbn [no_space]. by rewrite format_d_no_space. }
  destruct (Py.split " - " (Customer_Name row)) as [|piece rest] eqn:Es;
    [by apply split_go_nonempty in Es|].
  exists i, row, piece, rest. split_and!; [done| |done|].
  - by rewrite split_no_space, Es.
  - by apply find_customer_unique.
Qed.

Lemma combo_entry_leads_to_customer_witness :
  ∃ (i : nat) row piece rest,
    customers (run_all [SaveCustomer "2024-01-01" john] first_start) !! i
    = Some row ∧
    Py.split " - " "C001 - John" = Customer_ID row :: piece :: rest ∧
    Py.split " - " (Customer_Name row) = piece :: rest ∧
    find_customer (Customer_ID row)
      (customers (run_all [SaveCustomer "2024-01-01" john] first_start))
    = Some (i, row).
Proof.
  apply (combo_entry_leads_to_customer [SaveCustomer "2024-01-01" john]
           "C001 - John").
  vm_compute. apply list_elem_of_here.
Defined.

(** ** The product search *)

Lemma prefix_nil s : String.prefix "" s = true.
Proof. by destruct s. Qed.

Lemma prefix_refl s : String.prefix s s = true.
Proof.
  induction s as [|c s IH]; [done|]. cbn [String.prefix].
  by destruct (ascii_dec c c).
Qed.

Lemma prefix_spec p s : String.prefix p s = true ↔ ∃ b, s = p +:+ b.
Proof.
  revert s. induction p as [|c p IH]; intros s.
  - rewrite prefix_nil. split; [|done]. intros _. by exists s.
  - destruct s as [|c' s]; cbn [String.prefix].
    + split; [done|]. by intros [b Hb].
    + destruct (ascii_dec c c') as [<-|Hne].
      * rewrite IH. split; intros [b Hb]; exists b.
        -- by rewrite append_cons, <- Hb.
        -- rewrite append_cons in Hb. by injection Hb.
      * split; [done|]. intros [b Hb]. rewrite append_cons in Hb.
        by injection Hb.
Qed.

Lemma contains_nil s : contains "" s = true.
Proof. by destruct s. Qed.

(** [contains] is the substring test. *)
Lemma contains_spec sub s :
  contains sub s = true ↔ ∃ a b, s = a +:+ sub +:+ b.
Proof.
  induction s as [|c s IH]; cbn [contains].
  - rewrite orb_false_r, prefix_spec. split.
    + intros [b Hb]. by exists EmptyString, b.
    + intros ([|x a] & b & Hab); [by exists b|by rewrite append_cons in Hab].
  - rewrite orb_true_iff, prefix_spec, IH. split.
    + intros [[b Hb]|(a & b & Hab)].
      * by exists EmptyString, b.
      * exists (String c a), b. by rewrite append_cons, <- Hab.
    + intros ([|x a] & b & Hab).
      * left. by exists b.
      * right. rewrite append_cons in Hab. injection Hab as -> ->.
        by exists a, b.
Qed.

(** X10: with an empty search box [filter_products] lists every product,
    in inventory order: the same rows [refresh_inventory_display] puts in the
    product list. *)
Theorem empty_search_lists_all (lower : string -> string) inv :
  lower "" = "" →
  filter_products lower "" inv = product_tree_rows inv.
Proof.
  intros Hlower. unfold filter_products, product_tree_rows. cbv zeta.
  rewrite Hlower. f_equal.
  apply filter_all, Forall_forall. intros row _.
  by rewrite contains_nil.
Qed.

Lemma empty_search_lists_all_witness :
  filter_products ascii_lower "" sample_inventory
  = product_tree_rows sample_inventory.
Proof. apply (empty_search_lists_all ascii_lower). reflexivity. Defined.

(** X11: a product of the inventory is listed by [filter_products]
    whenever its lowered name or its lowered id contains the lowered search
    text; in particular typing a product's id or name, in any case, lists it.
    Every row listed is a row of the inventory. *)
Theorem search_finds_product (lower : string -> string) search_var inv row :
  row ∈ inv →
  (∃ a b, lower (Product_Name row) = a +:+ lower search_var +:+ b) ∨
  (∃ a b, lower (Product_ID row) = a +:+ lower search_var +:+ b) →
  (Product_ID row, Product_Name row, Unit_Price row, Stock_Quantity row)
  ∈ filter_products lower search_var inv ∧
  filter_products lower search_var inv ⊆ product_tree_rows inv.
Proof.
  intros Hrow Hmatch. unfold filter_products, product_tree_rows. cbv zeta. split.
  - apply (list_elem_of_fmap_2
             (fun row => (Product_ID row, Product_Name row, Unit_Price row,
                          Stock_Quantity row))).
    apply list_elem_of_filter. split; [|done].
    apply orb_true_iff. rewrite !contains_spec. done.
  - intros x (r & -> & Hr)%list_elem_of_fmap.
    apply list_elem_of_filter in Hr as [_ Hr].
    by apply (list_elem_of_fmap_2
                (fun row => (Product_ID row, Product_Name row, Unit_Price row,
                             Stock_Quantity row))).
Qed.

Lemma search_finds_product_witness :
  ("P005", "Milk (1L)", 60%float, 15)
  ∈ filter_products ascii_lower "MILK" sample_inventory ∧
  filter_products ascii_lower "MILK" sample_inventory
  ⊆ product_tree_rows sample_inventory.
Proof.
  apply (search_finds_product ascii_lower "MILK" sample_inventory
           (sample_product "P005" "Milk (1L)" "Dairy" 60 15 5 "Supplier D")).
  - vm_compute. do 4 apply list_elem_of_further. apply list_elem_of_here.
  - left. by exists "", " (1l)".
Defined.

(** ** Adding and taking back *)

(** X12: taking the last line out of the cart right after [add_to_cart]
    has put it there gives back the state there was before. *)
Theorem add_then_remove_last_line selection qty_var app item :
  current_cart (add_to_cart selection qty_var app).1
  = current_cart app ++ [item] →
  remove_from_cart (Some (length (current_cart app)))
    (add_to_cart selection qty_var app).1
  = (app, []).
Proof.
  unfold add_to_cart, add_item.
  destruct selection as [product_id|];
    [|intros H; apply (f_equal length) in H; rewrite length_app in H;
      simpl in H; lia].
  destruct (find_product _ _) as [[i p]|];
    [|intros H; apply (f_equal length) in H; rewrite length_app in H;
      simpl in H; lia].
  destruct qty_var as [q|];
    [|intros H; apply (f_equal length) in H; rewrite length_app in H;
      simpl in H; lia].
  destruct (q <=? 0);
    [intros H; apply (f_equal length) in H; rewrite length_app in H;
     simpl in H; lia|].
  destruct (q >? _);
    [intros H; apply (f_equal length) in H; rewrite length_app in H;
     simpl in H; lia|].
  intros _. unfold remove_from_cart.
  cbn [fst current_cart set_current_cart].
  rewrite lookup_app_r, Nat.sub_diag by done. cbn [lookup list_lookup].
  rewrite delete_middle, app_nil_r. by destruct app.
Qed.

Lemma add_then_remove_last_line_witness :
  remove_from_cart (Some 0%nat)
    (add_to_cart (Some "P001") (Some 3) shop_with_customer).1
  = (shop_with_customer, []).
Proof.
  apply (add_then_remove_last_line (Some "P001") (Some 3) shop_with_customer
           {| product_id := "P001"; product_name := "Rice (1kg)";
              quantity := 3; unit_price := 80%float; total := 240%float |}).
  vm_compute. reflexivity.
Defined.

(** X13: an item [add_to_shopping_list] accepts shows up as the last row
    of the customer's list display, and removing that row right away gives
    back the list there was: the display and every customer's list, read with
    a missing list as an empty one, are as before.  (The table itself may
    differ: a customer who had no list is left with an empty one.) *)
Theorem add_then_remove_list_item product_name quantity note shown app app1 :
  add_to_shopping_list product_name quantity note app
  = (app1, [showinfo "Success" (Text "Item added to shopping list!")]) →
  (∃ q, quantity = Some q ∧
        load_customer_shopping_list shown app1
        = load_customer_shopping_list shown app ++ [(product_name, q, note)]) ∧
  ∃ app2,
    remove_from_shopping_list
      (Some (length (load_customer_shopping_list shown app))) app1
    = (app2, [showinfo "Success" (Text "Item removed from shopping list!")]) ∧
    load_customer_shopping_list shown app2 = load_customer_shopping_list shown app ∧
    ∀ customer_id,
      default [] (shopping_lists app2 !! customer_id)
      = default [] (shopping_lists app !! customer_id).
Proof.
  unfold add_to_shopping_list.
  destruct (Py.str_truth (shopping_customer_var app)) eqn:Et; [|done].
  destruct (negb (Py.str_truth product_name)); [done|]. cbn [negb orb].
  destruct quantity as [q|]; [|done]. destruct (q <=? 0); [done|]. cbv zeta.
  set (cid := hd EmptyString (Py.split " - " (shopping_customer_var app))).
  set (items := default [] (shopping_lists app !! cid)).
  set (it := {| product := product_name; list_quantity := q; notes := note |}).
  intros [= <-].
  assert (Hload : load_customer_shopping_list shown app
                  = (fun item => (product item, list_quantity item, notes item))
                    <$> items).
  { unfold load_customer_shopping_list. rewrite Et. cbn [negb]. cbv zeta.
    fold cid. subst items. by destruct (shopping_lists app !! cid). }
  split.
  - exists q. split; [done|]. rewrite Hload.
    unfold load_customer_shopping_list.
    cbn [shopping_customer_var set_shopping_lists shopping_lists].
    rewrite Et. cbn [negb]. cbv zeta. fold cid.
    rewrite lookup_insert_eq. by rewrite fmap_app.
  - eexists. unfold remove_from_shopping_list.
    cbn [shopping_customer_var set_shopping_lists shopping_lists].
    rewrite Et. cbn [negb]. cbv zeta. fold cid.
    rewrite lookup_insert_eq, Hload, length_fmap, length_app.
    assert ((length items <? length items + length [it])%nat = true) as ->
      by (apply Nat.ltb_lt; simpl; lia).
    rewrite delete_middle, app_nil_r, insert_insert_eq.
    split_and!; [reflexivity| |].
    + unfold load_customer_shopping_list.
      cbn [shopping_customer_var set_shopping_lists shopping_lists].
      rewrite Et. cbn [negb]. cbv zeta. fold cid.
      by rewrite lookup_insert_eq.
    + intros customer_id. cbn [set_shopping_lists shopping_lists].
      destruct (decide (cid = customer_id)) as [<-|Hne].
      * by rewrite lookup_insert_eq.
      * by rewrite lookup_insert_ne.
Qed.

Lemma add_then_remove_list_item_witness :
  load_customer_shopping_list []
    (add_to_shopping_list "Bread" (Some 2) "fresh"
       (set_shopping_customer_var "C001 - John" shop_with_customer)).1
  = [("Bread", 2, "fresh")].
Proof.
  destruct (add_then_remove_list_item "Bread" (Some 2) "fresh" []
              (set_shopping_customer_var "C001 - John" shop_with_customer)
              (add_to_shopping_list "Bread" (Some 2) "fresh"
                 (set_shopping_customer_var "C001 - John" shop_with_customer)).1)
    as ((q & Hq & Hload) & _); [vm_compute; reflexivity|].
  injection Hq as <-. rewrite Hload. reflexivity.
Defined.

(** X14: once a customer is chosen and the question is answered with yes,
    [clear_shopping_list] leaves that customer an empty list and every other
    customer's list as it was; clearing again changes nothing more, the list
    display is empty, and [add_shopping_list_to_cart] then only warns that
    the list is empty and leaves the state alone. *)
Theorem cleared_list_is_empty shown app :
  Py.str_truth (shopping_customer_var app) = true →
  let customer_id := hd EmptyString (Py.split " - " (shopping_customer_var app)) in
  let app1 := (clear_shopping_list true app).1 in
  shopping_lists app1 !! customer_id = Some [] ∧
  (∀ other, other ≠ customer_id →
            shopping_lists app1 !! other = shopping_lists app !! other) ∧
  (clear_shopping_list true app1).1 = app1 ∧
  load_customer_shopping_list shown app1 = [] ∧
  add_shopping_list_to_cart app1
  = (app1, [showwarning "Warning" (Text "Shopping list is empty!")]).
Proof.
  intros Et cid app1.
  assert (Happ1 : app1 = set_shopping_lists (<[cid := []]> (shopping_lists app)) app).
  { subst app1. unfold clear_shopping_list. by rewrite Et. }
  rewrite Happ1. split_and!.
  - cbn. apply lookup_insert_eq.
  - intros other Hne. cbn. by rewrite lookup_insert_ne.
  - unfold clear_shopping_list. cbn [shopping_customer_var set_shopping_lists].
    rewrite Et. cbn [negb fst]. cbv zeta. fold cid.
    unfold set_shopping_lists. cbn [shopping_lists]. by rewrite insert_insert_eq.
  - unfold load_customer_shopping_list.
    cbn [shopping_customer_var set_shopping_lists shopping_lists].
    rewrite Et. cbn [negb]. cbv zeta. fold cid. by rewrite lookup_insert_eq.
  - unfold add_shopping_list_to_cart.
    cbn [shopping_customer_var set_shopping_lists shopping_lists].
    rewrite Et. cbn [negb]. cbv zeta. fold cid. by rewrite lookup_insert_eq.
Qed.

Lemma cleared_list_is_empty_witness :
  load_customer_shopping_list [] (clear_shopping_list true list_with_unknown_item).1
  = [].
Proof.
  destruct (cleared_list_is_empty [] list_with_unknown_item) as (_ & _ & _ & H & _);
    [reflexivity|exact H].
Defined.




(** ** Low stock and negative stock *)

(** X16: a sale that goes through does not take a product off the
    low-stock alert: when the quantities of the cart are [int64] values, none
    of them negative, and the subtraction does not wrap around (the stock is
    an [int64] and the cart asks of the product at most the stock plus
    2^63), a row that
    [show_low_stock] listed before the sale (stock at or below the minimum
    level) is listed after it, at the same position of the inventory and
    with a stock no higher than before. *)
Theorem sale_keeps_low_stock_low date time app app' sid amount (i : nat) p :
  process_sale date time app
  = (app', [showinfo "Success" (SaleProcessed sid amount)]) →
  Forall (fun item => 0 ≤ quantity item < 2 ^ 63) (current_cart app) →
  inventory app !! i = Some p →
  Py.in_int64 (Stock_Quantity p) →
  sold (Product_ID p) (current_cart app) ≤ Stock_Quantity p + 2 ^ 63 →
  p ∈ low_stock_items (inventory app) →
  ∃ p', inventory app' !! i = Some p' ∧
        Product_ID p' = Product_ID p ∧
        Stock_Quantity p' ≤ Stock_Quantity p ∧
        p' ∈ low_stock_items (inventory app').
Proof.
  intros H Hcart Hp Hint Hask Hlow.
  pose proof (stock_after_sale date time app app' sid amount i p H Hp Hint)
    as Hp'.
  apply list_elem_of_filter in Hlow as [Hlow _].
  assert (Hsold : 0 ≤ sold (Product_ID p) (current_cart app)).
  { apply sold_nonnegative. eapply Forall_impl; [exact Hcart|].
    intros item Hq. cbn beta in Hq. lia. }
  rewrite wrap64_in_int64 in Hp'
    by (unfold Py.in_int64 in *; case_decide; lia).
  eexists. split; [exact Hp'|]. cbn.
  assert (Stock_Quantity p
          - (if decide (first_index (Product_ID p) (inventory app) = Some i)
             then sold (Product_ID p) (current_cart app) else 0)
          ≤ Stock_Quantity p) as Hle by (case_decide; lia).
  split_and!; [done|exact Hle|].
  apply list_elem_of_filter. split; [cbn; lia|].
  by eapply list_elem_of_lookup_2.
Qed.

Lemma sale_keeps_low_stock_low_witness :
  ∃ p', inventory
          (process_sale "2024-01-03" "09:00:00"
             (add_to_cart (Some "P005") (Some 2) low_milk).1).1
        !! 4%nat = Some p' ∧
        Product_ID p' = "P005" ∧
        Stock_Quantity p' ≤ 5 ∧
        p' ∈ low_stock_items
               (inventory
                  (process_sale "2024-01-03" "09:00:00"
                     (add_to_cart (Some "P005") (Some 2) low_milk).1).1).
Proof.
  apply (sale_keeps_low_stock_low "2024-01-03" "09:00:00"
           (add_to_cart (Some "P005") (Some 2) low_milk).1
           _ "S0002" 120%float 4%nat
           (sample_product "P005" "Milk (1L)" "Dairy" 60 5 5 "Supplier D")).
  - vm_compute. reflexivity.
  - set (cart := current_cart _). vm_compute in cart. subst cart.
    repeat (apply Forall_cons_2; [simpl; lia|]). apply Forall_nil_2.
  - vm_compute. reflexivity.
  - unfold Py.in_int64. simpl. lia.
  - vm_compute. discriminate.
  - vm_compute. apply list_elem_of_here.
Defined.


(** X18: a negative stock can only come from a sale or from a new
    product: every other action, [update_stock] included, keeps an inventory
    free of negative stock that way. *)
Theorem other_actions_keep_stock_nonnegative a app :
  (∀ date time, a ≠ ProcessSale date time) →
  (∀ form, a ≠ SaveProduct form) →
  stock_nonnegative (inventory app) →
  stock_nonnegative (inventory (run a app).1).
Proof.
  intros Hsale Hnew Hinv. unfold stock_nonnegative in *.
  destruct a as [selection qty_var| selection | | date time
                | selection stock_var | form | today form | text | text
                | product_name quantity notes | | selection | confirmed | text ];
    cbn [run];
    try (unfold add_to_cart, add_item, remove_from_cart, save_customer,
           add_to_shopping_list, add_shopping_list_to_cart,
           remove_from_shopping_list, clear_shopping_list;
         repeat case_match; done).
  - by destruct (Hsale date time).
  - stock_dialog_cases idx p q Hp Hq; [done|]. cbn.
    apply Forall_insert; [done|]. cbn. lia.
  - by destruct (Hnew form).
Qed.

Lemma other_actions_keep_stock_nonnegative_witness :
  stock_nonnegative
    (inventory (run (UpdateStock (Some 4%nat) (Some 0)) low_milk).1).
Proof.
  apply (other_actions_keep_stock_nonnegative
           (UpdateStock (Some 4%nat) (Some 0)) low_milk); [discriminate..|].
  vm_compute. repeat constructor; discriminate.
Defined.

(** [save_product] takes a negative stock as it is. *)
Example negative_stock_is_accepted :
  Stock_Quantity <$>
    last (inventory
            (save_product
               {| name_var := "Crate"; category_var := "Pantry";
                  price_var := Some 10%float; stock_var := Some (-3);
                  min_stock_var := Some 0; supplier_var := "Supplier A" |}
               first_start).1)
  = Some (-3).
Proof. vm_compute. reflexivity. Qed.

(** ** When a sale goes through *)

Lemma sale_loop_resolved mk cart s s' :
  sale_loop mk cart s = (s', None) →
  Forall (fun item => product_id item ∈ Product_ID <$> loop_inventory s) cart.
Proof.
  revert s. induction cart as [|item cart IH]; intros s; [by constructor|].
  cbn [sale_loop]. destruct (find_product _ _) as [[idx p]|] eqn:E; [|done].
  intros H. apply find_product_Some in E as (Hp & Hid & _).
  constructor.
  - rewrite <- Hid. apply list_elem_of_fmap_2. by eapply list_elem_of_lookup_2.
  - apply IH in H. cbn in H. by rewrite ids_set_stock in H.
Qed.

(** X19: [process_sale] goes through exactly when the cart is not empty,
    the customer text has at least two pieces around the separator, and every
    cart line names a product of the inventory.  Stock plays no part, and
    neither does it whether the customer exists. *)
Theorem process_sale_succeeds_iff date time app :
  (∃ sid amount,
     (process_sale date time app).2
     = [showinfo "Success" (SaleProcessed sid amount)]) ↔
  current_cart app ≠ [] ∧
  (∃ customer_id customer_name rest,
     Py.split " - " (customer_var app) = customer_id :: customer_name :: rest) ∧
  Forall (fun item => product_id item ∈ Product_ID <$> inventory app)
         (current_cart app).
Proof.
  split.
  - intros (sid & amount & H).
    destruct (process_sale date time app) as [app' ds] eqn:E. cbn in H. subst ds.
    apply process_sale_success in E
      as (customer_id & customer_name & rest & s & Hcart & Hsplit & Hloop & _).
    split_and!; [done|by eexists _, _, _|].
    by apply sale_loop_resolved in Hloop.
  - intros (Hcart & (customer_id & customer_name & rest & Hsplit) & Hids).
    pose proof (sale_loop_resolves
                  (sale_record (sale_id (sales_records app)) date time
                     customer_id customer_name (payment_var app))
                  (current_cart app) (loop_start app) Hids) as Hnone.
    destruct (sale_loop _ _ _) as [s e] eqn:El. cbn in Hnone. subst e.
    rewrite (process_sale_ok _ _ _ _ _ _ _ Hcart Hsplit El). by eexists _, _.
Qed.

(** ** A new customer *)

(** X21: from the first start on, whatever the user does, a customer
    [save_customer] adds goes to the end of the customer table with no
    purchases, under an id no other customer has, and is left selected in the
    sales tab: the customer text is the new customer's entry of the customer
    boxes, and the id [process_sale] reads from it is the new id, which looks
    up the new row. *)
Theorem new_customer_is_selected actions today form id :
  (save_customer today form (run_all actions first_start)).2
  = [showinfo "Success" (CustomerAdded id)] →
  ∃ row piece rest,
    customers (save_customer today form (run_all actions first_start)).1
    = customers (run_all actions first_start) ++ [row] ∧
    Customer_ID row = id ∧
    Customer_Name row = cust_name_var form ∧
    Total_Purchases row = 0%float ∧
    customer_var (save_customer today form (run_all actions first_start)).1
    ∈ customer_names
        (customers (save_customer today form (run_all actions first_start)).1) ∧
    Py.split " - "
      (customer_var (save_customer today form (run_all actions first_start)).1)
    = id :: piece :: rest ∧
    find_customer id
      (customers (save_customer today form (run_all actions first_start)).1)
    = Some (length (customers (run_all actions first_start)), row).
Proof.
  set (app := run_all actions first_start).
  destruct (ids_stay_sequential_aux actions) as ([_ Hc] & Hnodup).
  fold app in Hc, Hnodup.
  unfold save_customer.
  destruct (new_id "C" (Customer_ID <$> customers app)) as [new_customer_id|] eqn:Eid;
    [|done].
  destruct (negb _); [done|]. intros [= <-].
  cbn [fst customers customer_var set_customers set_customer_var
       Customer_ID Customer_Name].
  set (row := {| Customer_ID := new_customer_id;
                 Customer_Name := cust_name_var form |}).
  rewrite Hc, new_id_numbered in Eid. injection Eid as Eid.
  assert (Hspace : no_space new_customer_id = true).
  { rewrite <- Eid. cbn [no_space]. by rewrite format_d_no_space. }
  destruct (Py.split " - " (cust_name_var form)) as [|piece rest] eqn:Es;
    [by apply split_go_nonempty in Es|].
  exists row, piece, rest. split_and!; try done.
  - unfold customer_names. rewrite fmap_app. apply elem_of_app. right.
    apply list_elem_of_here.
  - by rewrite split_no_space, Es.
  - apply (find_customer_unique _ _ row).
    + rewrite fmap_app, Hc. cbn [fmap list_fmap Customer_ID row].
      rewrite <- Eid, <- numbered_ids_snoc. apply numbered_ids_NoDup.
    + rewrite lookup_app_r, Nat.sub_diag; done.
Qed.

Lemma new_customer_is_selected_witness :
  ∃ row piece rest,
    customers (save_customer "2024-01-01" john (run_all [] first_start)).1
    = customers (run_all [] first_start) ++ [row] ∧
    Customer_ID row = "C001" ∧
    Customer_Name row = cust_name_var john ∧
    Total_Purchases row = 0%float ∧
    customer_var (save_customer "2024-01-01" john (run_all [] first_start)).1
    ∈ customer_names
        (customers (save_customer "2024-01-01" john (run_all [] first_start)).1) ∧
    Py.split " - "
      (customer_var (save_customer "2024-01-01" john (run_all [] first_start)).1)
    = "C001" :: piece :: rest ∧
    find_customer "C001"
      (customers (save_customer "2024-01-01" john (run_all [] first_start)).1)
    = Some (length (customers (run_all [] first_start)), row).
Proof.
  apply (new_customer_is_selected [] "2024-01-01" john "C001").
  vm_compute. reflexivity.
Defined.
